(** * MT5 bridge server: a shallow embedding of [mt5_bridge_server.py]

    The Python class [MT5Bridge] keeps one session against a MetaTrader 5
    terminal and is driven by Flask request handlers and by one background
    streaming thread.  The embedding below follows the source method by
    method:

    - Python values that travel through dictionaries are [pyval]s, Python
      floats are IEEE binary64 numbers ([PrimFloat.float]) and Python
      dictionaries with string keys are [gmap string pyval];
    - the [MetaTrader5] module, [int], [str.lower] and the clock are not
      part of the repository: they are fields of a [Runtime] record over an
      arbitrary terminal state [W], and every terminal call may answer or
      raise;
    - a method is a computation in a state-and-exception monad [M] over the
      bridge object, the terminal state and the trace of external effects
      (terminal calls with their answers, socket emissions, thread start and
      join, sleeps).  A raised exception keeps the state reached so far, as
      in Python;
    - [logger] calls are left out: they touch nothing the bridge reads. *)

From Stdlib Require Import ZArith List String Lia.
From Stdlib Require Import Floats.PrimFloat.
From Stdlib Require Import Numbers.DecimalString.
From stdpp Require Import gmap strings list fin_maps.

Set Warnings "-inexact-float".
Local Open Scope string_scope.
Local Open Scope Z_scope.
Local Open Scope list_scope.

(** ** Python values *)

Inductive pyval :=
| VNone
| VBool (b : bool)
| VInt (z : Z)
| VFloat (f : float)
| VStr (s : string).

Abbreviation pydict := (gmap string pyval).

(** Truth value of an object in a condition ([if x], [x and y]). *)
Definition truthy (v : pyval) : bool :=
  match v with
  | VNone => false
  | VBool b => b
  | VInt z => negb (Z.eqb z 0)
  | VFloat f => negb (PrimFloat.eqb f 0%float)
  | VStr s => negb (String.eqb s "")
  end.

(** [str(n)] for an integer. *)
Definition str_int (z : Z) : string := NilZero.string_of_int (Z.to_int z).

(** What a JSON body or socket payload can carry in this program. *)
Inductive json :=
| JNone
| JDict (d : pydict)
| JDicts (l : list pydict)
| JStrings (l : list string).

(** ** Results of external calls *)

Inductive outcome (A : Type) :=
| Ret (a : A)
| Raise (e : string).
Arguments Ret {A} a.
Arguments Raise {A} e.

(** ** Named tuples returned by the terminal

    Only the fields the bridge or the specification names are kept; the
    bridge copies the tuples as a whole and never looks at the others. *)

Record AccountInfo := {
  acc_login : Z;
  acc_balance : float;
  acc_equity : float;
  acc_margin : float;
  acc_currency : string
}.

Record SymbolInfo := { sym_name : string }.

Record TradePosition := {
  pos_ticket : Z;
  pos_symbol : string;
  pos_volume : float;
  pos_type : Z;
  pos_price_open : float;
  pos_sl : float;
  pos_tp : float;
  pos_comment : string
}.

Record TradeOrder := {
  ord_ticket : Z;
  ord_symbol : string;
  ord_volume : float;
  ord_type : Z;
  ord_price_open : float;
  ord_sl : float;
  ord_tp : float;
  ord_comment : string
}.

Record Tick := {
  tick_time : Z;
  tick_bid : float;
  tick_ask : float;
  tick_volume_real : float
}.

Record OrderSendResult := {
  res_retcode : Z;
  res_order : Z;
  res_comment : string
}.

(** [namedtuple._asdict()] *)
Definition account_asdict (a : AccountInfo) : pydict :=
  <["login" := VInt (acc_login a)]>
  (<["balance" := VFloat (acc_balance a)]>
  (<["equity" := VFloat (acc_equity a)]>
  (<["margin" := VFloat (acc_margin a)]>
  (<["currency" := VStr (acc_currency a)]> ∅)))).

Definition position_asdict (p : TradePosition) : pydict :=
  <["ticket" := VInt (pos_ticket p)]>
  (<["symbol" := VStr (pos_symbol p)]>
  (<["volume" := VFloat (pos_volume p)]>
  (<["type" := VInt (pos_type p)]>
  (<["price_open" := VFloat (pos_price_open p)]>
  (<["sl" := VFloat (pos_sl p)]>
  (<["tp" := VFloat (pos_tp p)]>
  (<["comment" := VStr (pos_comment p)]> ∅))))))).

Definition order_asdict (o : TradeOrder) : pydict :=
  <["ticket" := VInt (ord_ticket o)]>
  (<["symbol" := VStr (ord_symbol o)]>
  (<["volume" := VFloat (ord_volume o)]>
  (<["type" := VInt (ord_type o)]>
  (<["price_open" := VFloat (ord_price_open o)]>
  (<["sl" := VFloat (ord_sl o)]>
  (<["tp" := VFloat (ord_tp o)]>
  (<["comment" := VStr (ord_comment o)]> ∅))))))).

(** ** Constants of the MetaTrader5 module (its documented values) *)

Definition ORDER_TYPE_BUY : Z := 0.
Definition ORDER_TYPE_SELL : Z := 1.
Definition POSITION_TYPE_BUY : Z := 0.
Definition POSITION_TYPE_SELL : Z := 1.
Definition TRADE_ACTION_DEAL : Z := 1.
Definition ORDER_TIME_GTC : Z := 0.
Definition ORDER_FILLING_IOC : Z := 1.
Definition TRADE_RETCODE_DONE : Z := 10009.

(** ** External effects *)

Inductive event :=
| EvInitialize (r : outcome bool)
| EvLogin (login : Z) (password server : pyval) (r : outcome bool)
| EvAccountInfo (r : outcome (option AccountInfo))
| EvSymbolsGet (r : outcome (option (list SymbolInfo)))
| EvPositionsGet (ticket : option Z) (r : outcome (option (list TradePosition)))
| EvOrdersGet (r : outcome (option (list TradeOrder)))
| EvSymbolInfo (symbol : string) (r : outcome (option SymbolInfo))
| EvSymbolInfoTick (symbol : string) (r : outcome (option Tick))
| EvOrderSend (request : pydict) (r : outcome (option OrderSendResult))
| EvShutdown (r : outcome unit)
| EvEmit (name : string) (payload : json)
| EvThreadStart
| EvThreadJoin
| EvSleep (seconds : Z).

Definition is_initialize (e : event) : bool :=
  match e with EvInitialize _ => true | _ => false end.

Definition is_thread_start (e : event) : bool :=
  match e with EvThreadStart => true | _ => false end.

(** The world outside the repository: the [MetaTrader5] module over a
    terminal state [W], and the Python built-ins the bridge calls. *)
Record Runtime (W : Type) := {
  mt5_initialize : W -> outcome bool * W;
  mt5_login : Z -> pyval -> pyval -> W -> outcome bool * W;
  mt5_account_info : W -> outcome (option AccountInfo) * W;
  mt5_symbols_get : W -> outcome (option (list SymbolInfo)) * W;
  mt5_positions_get : option Z -> W -> outcome (option (list TradePosition)) * W;
  mt5_orders_get : W -> outcome (option (list TradeOrder)) * W;
  mt5_symbol_info : string -> W -> outcome (option SymbolInfo) * W;
  mt5_symbol_info_tick : string -> W -> outcome (option Tick) * W;
  mt5_order_send : pydict -> W -> outcome (option OrderSendResult) * W;
  mt5_shutdown : W -> outcome unit * W;
  py_int : pyval -> outcome Z;
  py_lower : string -> string;
  time_time : W -> Z * W
}.
Arguments mt5_initialize {W} _ _.
Arguments mt5_login {W} _ _ _ _ _.
Arguments mt5_account_info {W} _ _.
Arguments mt5_symbols_get {W} _ _.
Arguments mt5_positions_get {W} _ _ _.
Arguments mt5_orders_get {W} _ _.
Arguments mt5_symbol_info {W} _ _ _.
Arguments mt5_symbol_info_tick {W} _ _ _.
Arguments mt5_order_send {W} _ _ _.
Arguments mt5_shutdown {W} _ _.
Arguments py_int {W} _ _.
Arguments py_lower {W} _ _.
Arguments time_time {W} _ _.

(** ** The bridge object *)

Record MT5Bridge := {
  connected : bool;
  account_info : option pydict;
  symbols : list string;
  market_data : gmap string pydict;
  positions : list pydict;
  orders : list pydict;
  data_thread : bool;   (* [None] or a [Thread] object *)
  running : bool
}.

(** [MT5Bridge.__init__] *)
Definition init : MT5Bridge := {|
  connected := false;
  account_info := None;
  symbols := [];
  market_data := ∅;
  positions := [];
  orders := [];
  data_thread := false;
  running := false
|}.

Definition set_connected (b : bool) (s : MT5Bridge) : MT5Bridge :=
  {| connected := b; account_info := account_info s; symbols := symbols s;
     market_data := market_data s; positions := positions s;
     orders := orders s; data_thread := data_thread s; running := running s |}.

Definition set_account_info (a : option pydict) (s : MT5Bridge) : MT5Bridge :=
  {| connected := connected s; account_info := a; symbols := symbols s;
     market_data := market_data s; positions := positions s;
     orders := orders s; data_thread := data_thread s; running := running s |}.

Definition set_symbols (l : list string) (s : MT5Bridge) : MT5Bridge :=
  {| connected := connected s; account_info := account_info s; symbols := l;
     market_data := market_data s; positions := positions s;
     orders := orders s; data_thread := data_thread s; running := running s |}.

Definition set_market_data (m : gmap string pydict) (s : MT5Bridge) : MT5Bridge :=
  {| connected := connected s; account_info := account_info s; symbols := symbols s;
     market_data := m; positions := positions s;
     orders := orders s; data_thread := data_thread s; running := running s |}.

Definition set_positions (l : list pydict) (s : MT5Bridge) : MT5Bridge :=
  {| connected := connected s; account_info := account_info s; symbols := symbols s;
     market_data := market_data s; positions := l;
     orders := orders s; data_thread := data_thread s; running := running s |}.

Definition set_orders (l : list pydict) (s : MT5Bridge) : MT5Bridge :=
  {| connected := connected s; account_info := account_info s; symbols := symbols s;
     market_data := market_data s; positions := positions s;
     orders := l; data_thread := data_thread s; running := running s |}.

Definition set_data_thread (b : bool) (s : MT5Bridge) : MT5Bridge :=
  {| connected := connected s; account_info := account_info s; symbols := symbols s;
     market_data := market_data s; positions := positions s;
     orders := orders s; data_thread := b; running := running s |}.

Definition set_running (b : bool) (s : MT5Bridge) : MT5Bridge :=
  {| connected := connected s; account_info := account_info s; symbols := symbols s;
     market_data := market_data s; positions := positions s;
     orders := orders s; data_thread := data_thread s; running := b |}.

(** ** The monad of bridge computations *)

Record Sys (W : Type) := {
  self : MT5Bridge;
  world : W;
  trace : list event
}.
Arguments self {W} _.
Arguments world {W} _.
Arguments trace {W} _.
Arguments Build_Sys {W} _ _ _.

Definition M (W A : Type) : Type := Sys W -> outcome A * Sys W.

Definition ret {W A} (a : A) : M W A := fun s => (Ret a, s).

Definition bind {W A B} (m : M W A) (k : A -> M W B) : M W B :=
  fun s =>
    match m s with
    | (Ret a, s') => k a s'
    | (Raise e, s') => (Raise e, s')
    end.

(** [try: m except Exception as e: h(str(e))] *)
Definition try_catch {W A} (m : M W A) (h : string -> M W A) : M W A :=
  fun s =>
    match m s with
    | (Ret a, s') => (Ret a, s')
    | (Raise e, s') => h e s'
    end.

Notation "x <- m ;; k" := (bind m (fun x => k))
  (at level 100, m at next level, right associativity).
Notation "m ;; k" := (bind m (fun _ => k))
  (at level 100, right associativity).

Definition get_self {W} : M W MT5Bridge := fun s => (Ret (self s), s).

Definition update_self {W} (f : MT5Bridge -> MT5Bridge) : M W unit :=
  fun s => (Ret tt, Build_Sys (f (self s)) (world s) (trace s)).

Definition effect {W} (e : event) : M W unit :=
  fun s => (Ret tt, Build_Sys (self s) (world s) (trace s ++ [e])).

(** One call into the terminal: the terminal moves on, and the call and its
    answer are appended to the trace. *)
Definition call {W R} (f : W -> outcome R * W) (ev : outcome R -> event) : M W R :=
  fun s =>
    let '(r, w) := f (world s) in
    (r, Build_Sys (self s) w (trace s ++ [ev r])).

(** A Python built-in that may raise and touches no state. *)
Definition pure_call {W R} (r : outcome R) : M W R := fun s => (r, s).

(** [for x in l: body(x)] *)
Fixpoint for_each {W A} (l : list A) (body : A -> M W unit) : M W unit :=
  match l with
  | [] => ret tt
  | x :: l' => body x ;; for_each l' body
  end.

(** ** The methods of [MT5Bridge] *)

Module Bridge.
Section Methods.
Context {W : Type} (rt : Runtime W).

(** [MT5Bridge.connect] *)
Definition connect (login password server : pyval) : M W bool :=
  try_catch
    (ok <- call (mt5_initialize rt) EvInitialize ;;
     if negb ok then ret false else
     logged <- (if truthy login && truthy password && truthy server
                then l <- pure_call (py_int rt login) ;;
                     call (mt5_login rt l password server)
                          (EvLogin l password server)
                else ret true) ;;
     if negb logged then ret false else
     info <- call (mt5_account_info rt) EvAccountInfo ;;
     match info with
     | None => ret false
     | Some a =>
         update_self (set_account_info (Some (account_asdict a))) ;;
         update_self (set_connected true) ;;
         syms <- call (mt5_symbols_get rt) EvSymbolsGet ;;
         match syms with
         | Some (x :: l) =>
             update_self (set_symbols (map sym_name (firstn 50 (x :: l))))
         | _ => ret tt
         end ;;
         ret true
     end)
    (fun _ => ret false).

(** [MT5Bridge.disconnect]: no handler around the body. *)
Definition disconnect : M W unit :=
  update_self (set_running false) ;;
  s <- get_self ;;
  (if data_thread s then effect EvThreadJoin else ret tt) ;;
  call (mt5_shutdown rt) EvShutdown ;;
  update_self (set_connected false).

(** [MT5Bridge.get_account_info] *)
Definition get_account_info : M W (option pydict) :=
  s <- get_self ;;
  if negb (connected s) then ret None else
  try_catch
    (info <- call (mt5_account_info rt) EvAccountInfo ;;
     match info with
     | Some a =>
         update_self (set_account_info (Some (account_asdict a))) ;;
         s' <- get_self ;;
         ret (account_info s')
     | None => ret None
     end)
    (fun _ => ret None).

(** [MT5Bridge.get_positions] *)
Definition get_positions : M W (list pydict) :=
  s <- get_self ;;
  if negb (connected s) then ret [] else
  try_catch
    (found <- call (mt5_positions_get rt None) (EvPositionsGet None) ;;
     match found with
     | Some (p :: l) =>
         update_self (set_positions (map position_asdict (p :: l))) ;;
         s' <- get_self ;;
         ret (positions s')
     | _ => ret []
     end)
    (fun _ => ret []).

(** [MT5Bridge.get_orders] *)
Definition get_orders : M W (list pydict) :=
  s <- get_self ;;
  if negb (connected s) then ret [] else
  try_catch
    (found <- call (mt5_orders_get rt) EvOrdersGet ;;
     match found with
     | Some (o :: l) =>
         update_self (set_orders (map order_asdict (o :: l))) ;;
         s' <- get_self ;;
         ret (orders s')
     | _ => ret []
     end)
    (fun _ => ret []).

Definition error_dict (msg : string) : pydict := {[ "error" := VStr msg ]}.

(** The request dictionary built by [place_order]. *)
Definition order_request (symbol : string) (order_type : Z)
    (volume price sl tp comment : pyval) : pydict :=
  <["action" := VInt TRADE_ACTION_DEAL]>
  (<["symbol" := VStr symbol]>
  (<["volume" := volume]>
  (<["type" := VInt order_type]>
  (<["price" := price]>
  (<["sl" := sl]>
  (<["tp" := tp]>
  (<["comment" := comment]>
  (<["type_time" := VInt ORDER_TIME_GTC]>
  (<["type_filling" := VInt ORDER_FILLING_IOC]> ∅))))))))).

(** The request dictionary built by [close_position]. *)
Definition close_request (p : TradePosition) (close_type ticket : Z)
    (price : float) : pydict :=
  <["action" := VInt TRADE_ACTION_DEAL]>
  (<["symbol" := VStr (pos_symbol p)]>
  (<["volume" := VFloat (pos_volume p)]>
  (<["type" := VInt close_type]>
  (<["position" := VInt ticket]>
  (<["price" := VFloat price]>
  (<["comment" := VStr "WingZero Close"]>
  (<["type_time" := VInt ORDER_TIME_GTC]>
  (<["type_filling" := VInt ORDER_FILLING_IOC]> ∅)))))))).

(** [result.retcode] on [None] *)
Definition none_has_no_retcode : string :=
  "'NoneType' object has no attribute 'retcode'".

(** [MT5Bridge.place_order] *)
Definition place_order (symbol : string) (order_type : Z)
    (volume price sl tp comment : pyval) : M W pydict :=
  s <- get_self ;;
  if negb (connected s) then ret (error_dict "Not connected to MT5") else
  try_catch
    (symbol_info <- call (mt5_symbol_info rt symbol) (EvSymbolInfo symbol) ;;
     match symbol_info with
     | None => ret (error_dict ("Symbol " +:+ symbol +:+ " not found"))
     | Some _ =>
         let send (price : pyval) : M W pydict :=
           let request :=
             order_request symbol order_type volume price sl tp comment in
           result <- call (mt5_order_send rt request) (EvOrderSend request) ;;
           match result with
           | None => pure_call (Raise none_has_no_retcode)
           | Some r =>
               if negb (Z.eqb (res_retcode r) TRADE_RETCODE_DONE)
               then ret (error_dict ("Order failed: " +:+ res_comment r))
               else ret (<["success" := VBool true]>
                        (<["order_id" := VInt (res_order r)]>
                        (<["retcode" := VInt (res_retcode r)]>
                        (<["comment" := VStr (res_comment r)]> ∅))))
           end in
         match price with
         | VNone =>
             tick <- call (mt5_symbol_info_tick rt symbol)
                          (EvSymbolInfoTick symbol) ;;
             match tick with
             | None =>
                 ret (error_dict ("Failed to get price for " +:+ symbol))
             | Some t =>
                 send (VFloat (if Z.eqb order_type ORDER_TYPE_BUY
                               then tick_ask t else tick_bid t))
             end
         | _ => send price
         end
     end)
    (fun e => ret (error_dict e)).

(** [MT5Bridge.close_position] *)
Definition close_position (ticket : Z) : M W pydict :=
  s <- get_self ;;
  if negb (connected s) then ret (error_dict "Not connected to MT5") else
  try_catch
    (position <- call (mt5_positions_get rt (Some ticket))
                      (EvPositionsGet (Some ticket)) ;;
     match position with
     | Some (p :: _) =>
         let close_type :=
           if Z.eqb (pos_type p) POSITION_TYPE_BUY
           then ORDER_TYPE_SELL else ORDER_TYPE_BUY in
         tick <- call (mt5_symbol_info_tick rt (pos_symbol p))
                      (EvSymbolInfoTick (pos_symbol p)) ;;
         match tick with
         | None =>
             ret (error_dict ("Failed to get price for " +:+ pos_symbol p))
         | Some t =>
             let price :=
               if Z.eqb close_type ORDER_TYPE_SELL
               then tick_bid t else tick_ask t in
             let request := close_request p close_type ticket price in
             result <- call (mt5_order_send rt request) (EvOrderSend request) ;;
             match result with
             | None => pure_call (Raise none_has_no_retcode)
             | Some r =>
                 if negb (Z.eqb (res_retcode r) TRADE_RETCODE_DONE)
                 then ret (error_dict ("Close failed: " +:+ res_comment r))
                 else ret (<["success" := VBool true]>
                          (<["order_id" := VInt (res_order r)]>
                          (<["retcode" := VInt (res_retcode r)]> ∅)))
             end
         end
     | _ =>
         ret (error_dict ("Position " +:+ str_int ticket +:+ " not found"))
     end)
    (fun e => ret (error_dict e)).

(** The dictionary [get_market_data] builds from a tick. *)
Definition tick_data (symbol : string) (t : Tick) : pydict :=
  <["symbol" := VStr symbol]>
  (<["bid" := VFloat (tick_bid t)]>
  (<["ask" := VFloat (tick_ask t)]>
  (<["spread" := VFloat (PrimFloat.sub (tick_ask t) (tick_bid t))]>
  (<["timestamp" := VInt (tick_time t * 1000)]>
  (<["volume" := VFloat (tick_volume_real t)]> ∅))))).

(** [MT5Bridge.get_market_data] *)
Definition get_market_data (symbol : string) : M W (option pydict) :=
  s <- get_self ;;
  if negb (connected s) then ret None else
  try_catch
    (tick <- call (mt5_symbol_info_tick rt symbol) (EvSymbolInfoTick symbol) ;;
     match tick with
     | Some t => ret (Some (tick_data symbol t))
     | None => ret None
     end)
    (fun _ => ret None).

(** [MT5Bridge.start_data_stream]: the worker runs on its own thread; here
    its start is one effect. *)
Definition start_data_stream : M W unit :=
  s <- get_self ;;
  if running s then ret tt else
  update_self (set_running true) ;;
  update_self (set_data_thread true) ;;
  effect EvThreadStart.

Definition major_pairs : list string :=
  ["EURUSD"; "GBPUSD"; "USDJPY"; "USDCHF"; "AUDUSD"; "USDCAD"; "NZDUSD"].

(** [socketio.emit(name, payload)] *)
Definition emit (name : string) (payload : json) : M W unit :=
  effect (EvEmit name payload).

(** [time.sleep(n)] *)
Definition sleep (seconds : Z) : M W unit := effect (EvSleep seconds).

(** [int(time.time())] *)
Definition now : M W Z :=
  fun s =>
    let '(t, w) := time_time rt (world s) in
    (Ret t, Build_Sys (self s) w (trace s)).

(** Body of [for symbol in major_pairs] in the worker.  [data] is [None]
    or the six-key dictionary of [tick_data], so [if data] is the test
    for [None]. *)
Definition stream_symbol (symbol : string) : M W unit :=
  data <- get_market_data symbol ;;
  match data with
  | Some d =>
      update_self (fun b => set_market_data (<[symbol := d]> (market_data b)) b) ;;
      emit "market_data" (JDict d)
  | None => ret tt
  end.

Definition json_of_account (a : option pydict) : json :=
  match a with Some d => JDict d | None => JNone end.

(** Body of the worker's [while] loop. *)
Definition stream_iteration : M W unit :=
  try_catch
    (for_each major_pairs stream_symbol ;;
     t <- now ;;
     (if Z.eqb (t mod 5) 0
      then ps <- get_positions ;;
           account <- get_account_info ;;
           emit "positions_update" (JDicts ps) ;;
           emit "account_update" (json_of_account account)
      else ret tt) ;;
     sleep 1)
    (fun _ => sleep 5).

(** [MT5Bridge._data_stream_worker], run for at most [fuel] iterations:
    [true] when the loop condition failed, [false] when the fuel ran out. *)
Fixpoint _data_stream_worker (fuel : nat) : M W bool :=
  match fuel with
  | O => ret false
  | S n =>
      s <- get_self ;;
      if running s && connected s
      then stream_iteration ;; _data_stream_worker n
      else ret true
  end.

End Methods.
End Bridge.

(** ** The Flask request handlers

    A handler receives the fields it reads from the request (the JSON
    fields after [data.get] and its defaults, or the URL parameter) and
    answers a body and a status code. *)

Module Api.
Section Routes.
Context {W : Type} (rt : Runtime W).

Definition not_connected : json * Z :=
  (JDict (Bridge.error_dict "Not connected to MT5"), 400).

(** [connect_mt5] *)
Definition connect_mt5 (login password server : pyval) : M W (json * Z) :=
  success <- Bridge.connect rt login password server ;;
  if success
  then Bridge.start_data_stream ;;
       ret (JDict (<["success" := VBool true]>
                  (<["message" := VStr "Connected to MT5"]> ∅)), 200)
  else ret (JDict (Bridge.error_dict "Failed to connect to MT5"), 500).

(** [disconnect_mt5] *)
Definition disconnect_mt5 : M W (json * Z) :=
  Bridge.disconnect rt ;;
  ret (JDict (<["success" := VBool true]>
             (<["message" := VStr "Disconnected from MT5"]> ∅)), 200).

(** [get_account] *)
Definition get_account : M W (json * Z) :=
  s <- get_self ;;
  if negb (connected s) then ret not_connected else
  account <- Bridge.get_account_info rt ;;
  match account with
  | Some d => ret (JDict d, 200)
  | None => ret (JDict (Bridge.error_dict "Failed to get account info"), 500)
  end.

(** [get_positions] *)
Definition get_positions : M W (json * Z) :=
  s <- get_self ;;
  if negb (connected s) then ret not_connected else
  ps <- Bridge.get_positions rt ;;
  ret (JDicts ps, 200).

(** [get_orders] *)
Definition get_orders : M W (json * Z) :=
  s <- get_self ;;
  if negb (connected s) then ret not_connected else
  os <- Bridge.get_orders rt ;;
  ret (JDicts os, 200).

(** ["error" in result] *)
Definition has_error (d : pydict) : bool :=
  match d !! "error" with Some _ => true | None => false end.

(** [place_order] *)
Definition place_order (symbol order_type : string)
    (volume price sl tp comment : pyval) : M W (json * Z) :=
  s <- get_self ;;
  if negb (connected s) then ret not_connected else
  let mt5_order_type :=
    if String.eqb (py_lower rt order_type) "buy"
    then ORDER_TYPE_BUY else ORDER_TYPE_SELL in
  result <- Bridge.place_order rt symbol mt5_order_type volume price sl tp comment ;;
  if has_error result then ret (JDict result, 400) else ret (JDict result, 200).

(** [close_position] *)
Definition close_position (ticket : Z) : M W (json * Z) :=
  s <- get_self ;;
  if negb (connected s) then ret not_connected else
  result <- Bridge.close_position rt ticket ;;
  if has_error result then ret (JDict result, 400) else ret (JDict result, 200).

(** [get_symbols] *)
Definition get_symbols : M W (json * Z) :=
  s <- get_self ;;
  if negb (connected s) then ret not_connected else
  ret (JStrings (symbols s), 200).

(** [get_market_data] *)
Definition get_market_data (symbol : string) : M W (json * Z) :=
  s <- get_self ;;
  if negb (connected s) then ret not_connected else
  data <- Bridge.get_market_data rt symbol ;;
  match data with
  | Some d => ret (JDict d, 200)
  | None =>
      ret (JDict (Bridge.error_dict ("Failed to get data for " +:+ symbol)), 404)
  end.

(** [mt5_bridge.account_info['login'] if mt5_bridge.account_info else None]:
    a dictionary counts as true when it is not empty, and a missing key
    raises [KeyError]. *)
Definition status_account (s : MT5Bridge) : outcome pyval :=
  match account_info s with
  | Some d =>
      if Nat.eqb (size d) 0 then Ret VNone
      else match d !! "login" with
           | Some v => Ret v
           | None => Raise "'login'"
           end
  | None => Ret VNone
  end.

(** [get_status]; [timestamp] is [datetime.now().isoformat()]. *)
Definition get_status (timestamp : string) : M W (json * Z) :=
  s <- get_self ;;
  account <- pure_call (status_account s) ;;
  ret (JDict (<["status" := VStr "running"]>
             (<["mt5_connected" := VBool (connected s)]>
             (<["account" := account]>
             (<["timestamp" := VStr timestamp]> ∅)))), 200).

End Routes.
End Api.

(** ** The WebSocket event handlers

    [emit] inside a handler answers the client that sent the event; the
    recipient is not part of an [EvEmit]. *)

Module Socket.
Section Handlers.
Context {W : Type}.

(** [handle_connect] *)
Definition handle_connect : M W unit :=
  @Bridge.emit W "connected"
    (JDict {[ "status" := VStr "Connected to MT5 Bridge" ]}).

(** [handle_disconnect]: it only logs. *)
Definition handle_disconnect : M W unit := ret tt.

(** [handle_subscribe]; [symbol] is [data.get('symbol')].  The keys of
    [market_data] are strings, so a value that is no string is not in
    it. *)
Definition handle_subscribe (symbol : pyval) : M W unit :=
  s <- get_self ;;
  match symbol with
  | VStr name =>
      match market_data s !! name with
      | Some d => Bridge.emit "market_data" (JDict d)
      | None => ret tt
      end
  | _ => ret tt
  end.

End Handlers.
End Socket.

(** ** The server as a whole

    The process holds one global bridge.  Flask dispatches each request to
    its handler by route and method, Socket.IO dispatches each client event
    to its handler, and the worker thread takes turns of its loop.  Here
    the handlers and the turns of the worker act on the bridge one after
    the other. *)

Module Server.

Inductive action :=
| GetStatus (timestamp : string)
| PostConnect (login password server : pyval)
| PostDisconnect
| GetAccount
| GetPositions
| GetOrders
| PostOrder (symbol order_type : string) (volume price sl tp comment : pyval)
| PostClose (ticket : Z)
| GetSymbols
| GetMarket (symbol : string)
| OnConnect
| OnDisconnect
| OnSubscribe (symbol : pyval)
| WorkerTurn.

Section Dispatch.
Context {W : Type} (rt : Runtime W).

(** The state a computation leaves behind; a handler that raises makes
    Flask answer 500 and the process goes on from that state. *)
Definition after {A} (m : M W A) (st : Sys W) : Sys W := snd (m st).

Definition perform (a : action) : Sys W -> Sys W :=
  match a with
  | GetStatus timestamp => after (Api.get_status timestamp)
  | PostConnect login password server =>
      after (Api.connect_mt5 rt login password server)
  | PostDisconnect => after (Api.disconnect_mt5 rt)
  | GetAccount => after (Api.get_account rt)
  | GetPositions => after (Api.get_positions rt)
  | GetOrders => after (Api.get_orders rt)
  | PostOrder symbol order_type volume price sl tp comment =>
      after (Api.place_order rt symbol order_type volume price sl tp comment)
  | PostClose ticket => after (Api.close_position rt ticket)
  | GetSymbols => after Api.get_symbols
  | GetMarket symbol => after (Api.get_market_data rt symbol)
  | OnConnect => after Socket.handle_connect
  | OnDisconnect => after Socket.handle_disconnect
  | OnSubscribe symbol => after (Socket.handle_subscribe symbol)
  | WorkerTurn => after (Bridge._data_stream_worker rt 1)
  end.

Definition run (l : list action) (st : Sys W) : Sys W :=
  fold_left (fun s a => perform a s) l st.

(** The process at start-up: [mt5_bridge = MT5Bridge()], nothing done
    yet. *)
Definition boot (w : W) : Sys W := Build_Sys init w [].

End Dispatch.
End Server.

(** ** A scripted terminal for concrete runs

    The terminal state counts the calls served.  A [Script] fixes the
    answer of each query, so that a run of the bridge can be evaluated. *)

Module Fake.

Definition account : AccountInfo := {|
  acc_login := 12345;
  acc_balance := 10000%float;
  acc_equity := 10000%float;
  acc_margin := 0%float;
  acc_currency := "USD"
|}.

Definition quote : Tick := {|
  tick_time := 1700000000;
  tick_bid := 1.1000%float;
  tick_ask := 1.1002%float;
  tick_volume_real := 1%float
|}.

Definition long_position : TradePosition := {|
  pos_ticket := 555;
  pos_symbol := "EURUSD";
  pos_volume := 0.5%float;
  pos_type := POSITION_TYPE_BUY;
  pos_price_open := 1.0950%float;
  pos_sl := 0%float;
  pos_tp := 0%float;
  pos_comment := "WingZero"
|}.

Definition short_position : TradePosition := {|
  pos_ticket := 556;
  pos_symbol := "EURUSD";
  pos_volume := 0.5%float;
  pos_type := POSITION_TYPE_SELL;
  pos_price_open := 1.1050%float;
  pos_sl := 0%float;
  pos_tp := 0%float;
  pos_comment := "WingZero"
|}.

Definition pending_order : TradeOrder := {|
  ord_ticket := 777;
  ord_symbol := "GBPUSD";
  ord_volume := 0.1%float;
  ord_type := 2;
  ord_price_open := 1.2500%float;
  ord_sl := 0%float;
  ord_tp := 0%float;
  ord_comment := "WingZero"
|}.

Definition executed : OrderSendResult := {|
  res_retcode := TRADE_RETCODE_DONE;
  res_order := 9001;
  res_comment := "Request executed"
|}.

Definition rejected : OrderSendResult := {|
  res_retcode := 10019;
  res_order := 0;
  res_comment := "No money"
|}.

Record Script := {
  on_initialize : outcome bool;
  on_symbols_get : outcome (option (list SymbolInfo));
  on_positions_get : option Z -> outcome (option (list TradePosition));
  on_orders_get : outcome (option (list TradeOrder));
  on_tick : string -> outcome (option Tick);
  on_order_send : outcome (option OrderSendResult);
  on_shutdown : outcome unit
}.

Definition terminal (sc : Script) : Runtime nat := {|
  mt5_initialize := fun w => (on_initialize sc, S w);
  mt5_login := fun _ _ _ w => (Ret true, S w);
  mt5_account_info := fun w => (Ret (Some account), S w);
  mt5_symbols_get := fun w => (on_symbols_get sc, S w);
  mt5_positions_get := fun t w => (on_positions_get sc t, S w);
  mt5_orders_get := fun w => (on_orders_get sc, S w);
  mt5_symbol_info := fun s w => (Ret (Some {| sym_name := s |}), S w);
  mt5_symbol_info_tick := fun s w => (on_tick sc s, S w);
  mt5_order_send := fun _ w => (on_order_send sc, S w);
  mt5_shutdown := fun w => (on_shutdown sc, S w);
  py_int := fun v => match v with VInt z => Ret z | _ => Raise "invalid literal for int()" end;
  py_lower := fun s => s;
  time_time := fun w => (1700000000, w)
|}.

(** Everything answers. *)
Definition healthy : Script := {|
  on_initialize := Ret true;
  on_symbols_get := Ret (Some [ {| sym_name := "EURUSD" |}; {| sym_name := "GBPUSD" |} ]);
  on_positions_get := fun t =>
    match t with
    | Some 555 => Ret (Some [long_position])
    | Some 556 => Ret (Some [short_position])
    | Some _ => Ret (Some [])
    | None => Ret (Some [long_position; short_position])
    end;
  on_orders_get := Ret (Some [pending_order]);
  on_tick := fun _ => Ret (Some quote);
  on_order_send := Ret (Some executed);
  on_shutdown := Ret tt
|}.

(** The terminal rejects every deal. *)
Definition broke : Script := {|
  on_initialize := on_initialize healthy;
  on_symbols_get := on_symbols_get healthy;
  on_positions_get := on_positions_get healthy;
  on_orders_get := on_orders_get healthy;
  on_tick := on_tick healthy;
  on_order_send := Ret (Some rejected);
  on_shutdown := on_shutdown healthy
|}.

(** Every position has been closed at the venue. *)
Definition flat : Script := {|
  on_initialize := on_initialize healthy;
  on_symbols_get := on_symbols_get healthy;
  on_positions_get := fun _ => Ret (Some []);
  on_orders_get := on_orders_get healthy;
  on_tick := on_tick healthy;
  on_order_send := on_order_send healthy;
  on_shutdown := on_shutdown healthy
|}.

(** The symbol query answers [None]. *)
Definition no_symbols : Script := {|
  on_initialize := on_initialize healthy;
  on_symbols_get := Ret None;
  on_positions_get := on_positions_get healthy;
  on_orders_get := on_orders_get healthy;
  on_tick := on_tick healthy;
  on_order_send := on_order_send healthy;
  on_shutdown := on_shutdown healthy
|}.

(** [mt5.shutdown()] raises. *)
Definition stuck : Script := {|
  on_initialize := on_initialize healthy;
  on_symbols_get := on_symbols_get healthy;
  on_positions_get := on_positions_get healthy;
  on_orders_get := on_orders_get healthy;
  on_tick := on_tick healthy;
  on_order_send := on_order_send healthy;
  on_shutdown := Raise "IPC send failed"
|}.

(** The tick query raises for EURUSD, answers [None] for GBPUSD and
    answers the quote for every other symbol. *)
Definition patchy : Script := {|
  on_initialize := on_initialize healthy;
  on_symbols_get := on_symbols_get healthy;
  on_positions_get := on_positions_get healthy;
  on_orders_get := on_orders_get healthy;
  on_tick := fun s =>
    if String.eqb s "EURUSD" then Raise "IPC timeout"
    else if String.eqb s "GBPUSD" then Ret None
    else Ret (Some quote);
  on_order_send := on_order_send healthy;
  on_shutdown := on_shutdown healthy
|}.

(** A bridge that has just been constructed, and one that is connected
    with its stream running. *)
Definition fresh : Sys nat := Build_Sys init 0%nat [].

Definition online : Sys nat :=
  Build_Sys
    (set_running true (set_data_thread true
      (set_account_info (Some (account_asdict account)) (set_connected true init))))
    0%nat [].

(** A connected bridge whose stored snapshot holds the long position. *)
Definition holding : Sys nat :=
  Build_Sys (set_positions [position_asdict long_position] (self online))
    0%nat [].

(** A market buy and the closing of the long position, as requested by a
    client. *)
Definition buy : M nat pydict :=
  Bridge.place_order (terminal healthy) "EURUSD" ORDER_TYPE_BUY
    (VFloat 0.01%float) VNone VNone VNone (VStr "WingZero").

Definition buy_request : pydict :=
  Bridge.order_request "EURUSD" ORDER_TYPE_BUY (VFloat 0.01%float)
    (VFloat (tick_ask quote)) VNone VNone (VStr "WingZero").

Definition buy_receipt : pydict :=
  <["success" := VBool true]>
  (<["order_id" := VInt 9001]>
  (<["retcode" := VInt TRADE_RETCODE_DONE]>
  (<["comment" := VStr "Request executed"]> ∅))).

(** A connect request without credentials. *)
Definition connect_request : M nat (json * Z) :=
  Api.connect_mt5 (terminal healthy) VNone VNone VNone.

Definition connect_ok : json * Z :=
  (JDict (<["success" := VBool true]>
         (<["message" := VStr "Connected to MT5"]> ∅)), 200).

Definition connected_once : Sys nat :=
  Eval vm_compute in snd (connect_request fresh).

Definition connected_twice : Sys nat :=
  Eval vm_compute in snd (connect_request connected_once).

Definition close_long : M nat pydict :=
  Bridge.close_position (terminal healthy) 555.

Definition close_long_request : pydict :=
  Bridge.close_request long_position ORDER_TYPE_SELL 555 (tick_bid quote).

End Fake.

(** ** Further scripted terminals *)

Module Scenario.
Import Fake.

(** The terminal cannot be initialised. *)
Definition unreachable : Script := {|
  on_initialize := Ret false;
  on_symbols_get := on_symbols_get healthy;
  on_positions_get := on_positions_get healthy;
  on_orders_get := on_orders_get healthy;
  on_tick := on_tick healthy;
  on_order_send := on_order_send healthy;
  on_shutdown := on_shutdown healthy
|}.

(** The symbol query raises. *)
Definition symbols_fail : Script := {|
  on_initialize := on_initialize healthy;
  on_symbols_get := Raise "IPC timeout";
  on_positions_get := on_positions_get healthy;
  on_orders_get := on_orders_get healthy;
  on_tick := on_tick healthy;
  on_order_send := on_order_send healthy;
  on_shutdown := on_shutdown healthy
|}.

(** No quote is available for any symbol. *)
Definition no_tick : Script := {|
  on_initialize := on_initialize healthy;
  on_symbols_get := on_symbols_get healthy;
  on_positions_get := on_positions_get healthy;
  on_orders_get := on_orders_get healthy;
  on_tick := fun _ => Ret None;
  on_order_send := on_order_send healthy;
  on_shutdown := on_shutdown healthy
|}.

(** A connected bridge that already holds a tick for USDJPY. *)
Definition streaming : Sys nat :=
  Build_Sys
    (set_market_data {[ "USDJPY" := Bridge.tick_data "USDJPY" quote ]}
       (self online))
    0%nat [].

End Scenario.

(** ** Reading a trace *)

(** Number of events of a kind in a piece of trace. *)
Definition count_events (kind : event -> bool) (evs : list event) : nat :=
  length (List.filter kind evs).

(** The terminal accepted a submitted deal: [order_send] answered with
    return code [TRADE_RETCODE_DONE]. *)
Definition accepted (e : event) : bool :=
  match e with
  | EvOrderSend _ (Ret (Some r)) => Z.eqb (res_retcode r) TRADE_RETCODE_DONE
  | _ => false
  end.

Definition deal_done (evs : list event) : bool := existsb accepted evs.

Definition is_order_send (e : event) : bool :=
  match e with EvOrderSend _ _ => true | _ => false end.

Definition is_emit (name : string) (e : event) : bool :=
  match e with EvEmit n _ => String.eqb n name | _ => false end.

Definition is_sleep (e : event) : bool :=
  match e with EvSleep _ => true | _ => false end.

Definition is_thread_event (e : event) : bool :=
  match e with EvThreadStart | EvThreadJoin => true | _ => false end.

(** Reading a trace from left to right with [alive] telling whether a
    started worker has not been joined yet: is some worker started while
    another one is alive? *)
Fixpoint starts_while_alive (alive : bool) (evs : list event) : bool :=
  match evs with
  | [] => false
  | EvThreadStart :: l => alive || starts_while_alive true l
  | EvThreadJoin :: l => starts_while_alive false l
  | _ :: l => starts_while_alive alive l
  end.

Fixpoint worker_alive (alive : bool) (evs : list event) : bool :=
  match evs with
  | [] => alive
  | EvThreadStart :: l => worker_alive true l
  | EvThreadJoin :: l => worker_alive false l
  | _ :: l => worker_alive alive l
  end.

(** A computation relates the bridge before and after by [P] and appends
    only events that satisfy [Q], whether it returns or raises. *)
Definition preserves {W A} (P : MT5Bridge -> MT5Bridge -> Prop)
    (Q : event -> Prop) (m : M W A) : Prop :=
  forall st,
    exists evs,
      trace (snd (m st)) = trace st ++ evs /\
      Forall Q evs /\
      P (self st) (self (snd (m st))).

(** A computation that returns from every state. *)
Definition never_raises {W A} (m : M W A) : Prop :=
  forall st, exists a, fst (m st) = Ret a.

(** * Properties *)

Ltac run_monad :=
  unfold Bridge.error_dict, Bridge.emit, Bridge.sleep, bind, ret, try_catch,
    call, get_self, update_self, effect, pure_call in *;
  cbn [self world trace connected fst snd] in *.

(** ** Operations on a bridge that is not connected *)

(** C1. When the status is not connected, every operation of the bridge
    returns at once with its not-connected answer and leaves the whole
    system, terminal state and trace of terminal calls included, as it
    found it: [place_order] and [close_position] answer the error
    "Not connected to MT5", [get_account_info] and [get_market_data] answer
    [None], [get_positions] and [get_orders] answer the empty list; the
    request handlers of all six answer the error "Not connected to MT5"
    with status 400.  No terminal call is made. *)
Theorem not_connected_no_driver_call {W} (rt : Runtime W) (st : Sys W) :
  connected (self st) = false ->
  (forall symbol order_type volume price sl tp comment,
      Bridge.place_order rt symbol order_type volume price sl tp comment st
      = (Ret (Bridge.error_dict "Not connected to MT5"), st)) /\
  (forall ticket,
      Bridge.close_position rt ticket st
      = (Ret (Bridge.error_dict "Not connected to MT5"), st)) /\
  Bridge.get_account_info rt st = (Ret None, st) /\
  Bridge.get_positions rt st = (Ret [], st) /\
  Bridge.get_orders rt st = (Ret [], st) /\
  (forall symbol, Bridge.get_market_data rt symbol st = (Ret None, st)) /\
  (forall symbol order_type volume price sl tp comment,
      Api.place_order rt symbol order_type volume price sl tp comment st
      = (Ret Api.not_connected, st)) /\
  (forall ticket, Api.close_position rt ticket st = (Ret Api.not_connected, st)) /\
  Api.get_account rt st = (Ret Api.not_connected, st) /\
  Api.get_positions rt st = (Ret Api.not_connected, st) /\
  Api.get_orders rt st = (Ret Api.not_connected, st) /\
  (forall symbol, Api.get_market_data rt symbol st = (Ret Api.not_connected, st)).
Proof.
  intros Hoff.
  repeat split; intros;
    unfold Bridge.place_order, Bridge.close_position, Bridge.get_account_info,
      Bridge.get_positions, Bridge.get_orders, Bridge.get_market_data,
      Api.place_order, Api.close_position, Api.get_account, Api.get_positions,
      Api.get_orders, Api.get_market_data;
    run_monad; rewrite Hoff; reflexivity.
Qed.

Lemma not_connected_no_driver_call_witness :
  Bridge.place_order (Fake.terminal Fake.healthy) "EURUSD" ORDER_TYPE_BUY
    (VFloat 0.01%float) VNone VNone VNone (VStr "WingZero") Fake.fresh
  = (Ret (Bridge.error_dict "Not connected to MT5"), Fake.fresh).
Proof.
  apply (not_connected_no_driver_call (Fake.terminal Fake.healthy) Fake.fresh).
  reflexivity.
Defined.

(** ** Tactics for runs of bridge computations *)

(** Case analysis on every answer and test a run depends on, innermost
    first. *)
Ltac split_run H :=
  repeat (cbn [self world trace fst snd negb] in H;
    match type of H with
    | context [match ?x with _ => _ end] =>
        lazymatch x with
        | context [match _ with _ => _ end] => fail
        | _ => destruct x eqn:?
        end
    end).

(** From [trace st' = trace st ++ evs], the events a run appended. *)
Ltac new_events H :=
  cbn [self world trace] in H;
  try rewrite <- (app_nil_r (trace _)) in H at 1;
  repeat rewrite <- app_assoc in H;
  apply app_inv_head in H; cbn [app] in H.

Ltac pick_event H :=
  cbn [In] in H;
  repeat match type of H with
         | _ \/ _ => destruct H as [H | H]
         end;
  try discriminate H; try contradiction.

(** ** Requests sent to the terminal *)

Lemma order_request_price symbol order_type volume price sl tp comment :
  Bridge.order_request symbol order_type volume price sl tp comment !! "price"
  = Some price.
Proof. reflexivity. Qed.

(** ** Price of a market order *)

(** C2. Whenever [place_order], called on a connected bridge without an
    explicit price, submits a request, that request follows the lookup of
    the symbol and one fresh tick query for it, and its price is the ask of
    that tick when the side is buy and its bid when the side is sell. *)
Theorem place_order_market_price {W} (rt : Runtime W) (st st' : Sys W)
    symbol order_type volume sl tp comment res evs request answer :
  connected (self st) = true ->
  Bridge.place_order rt symbol order_type volume VNone sl tp comment st
    = (res, st') ->
  trace st' = trace st ++ evs ->
  In (EvOrderSend request answer) evs ->
  exists info t,
    evs = [EvSymbolInfo symbol (Ret (Some info));
           EvSymbolInfoTick symbol (Ret (Some t));
           EvOrderSend request answer] /\
    (order_type = ORDER_TYPE_BUY ->
       request !! "price" = Some (VFloat (tick_ask t))) /\
    (order_type = ORDER_TYPE_SELL ->
       request !! "price" = Some (VFloat (tick_bid t))).
Proof.
  intros Hon Hrun Htr Hin.
  unfold Bridge.place_order in Hrun. run_monad. rewrite Hon in Hrun.
  split_run Hrun; injection Hrun as <- <-; new_events Htr; subst evs;
    pick_event Hin; injection Hin as <- <-;
    eexists _, _; (split; [reflexivity |]);
    rewrite order_request_price; split; intros ->;
    first [reflexivity | discriminate].
Qed.

Lemma place_order_market_price_witness :
  exists info t,
    [EvSymbolInfo "EURUSD" (Ret (Some {| sym_name := "EURUSD" |}));
     EvSymbolInfoTick "EURUSD" (Ret (Some Fake.quote));
     EvOrderSend Fake.buy_request (Ret (Some Fake.executed))]
    = [EvSymbolInfo "EURUSD" (Ret (Some info));
       EvSymbolInfoTick "EURUSD" (Ret (Some t));
       EvOrderSend Fake.buy_request (Ret (Some Fake.executed))] /\
    (ORDER_TYPE_BUY = ORDER_TYPE_BUY ->
       Fake.buy_request !! "price" = Some (VFloat (tick_ask t))) /\
    (ORDER_TYPE_BUY = ORDER_TYPE_SELL ->
       Fake.buy_request !! "price" = Some (VFloat (tick_bid t))).
Proof.
  apply (place_order_market_price (Fake.terminal Fake.healthy) Fake.online
           (snd (Fake.buy Fake.online)) "EURUSD" ORDER_TYPE_BUY
           (VFloat 0.01%float) VNone VNone (VStr "WingZero")
           (fst (Fake.buy Fake.online))).
  - reflexivity.
  - apply surjective_pairing.
  - vm_compute. reflexivity.
  - right. right. left. reflexivity.
Defined.

(** The example of the specification: with the quote bid 1.1000, ask 1.1002
    a buy is submitted at 1.1002. *)
Example buy_at_the_ask :
  exists st',
    Fake.buy Fake.online = (Ret Fake.buy_receipt, st') /\
    trace st' =
      [EvSymbolInfo "EURUSD" (Ret (Some {| sym_name := "EURUSD" |}));
       EvSymbolInfoTick "EURUSD" (Ret (Some Fake.quote));
       EvOrderSend Fake.buy_request (Ret (Some Fake.executed))] /\
    Fake.buy_request !! "price" = Some (VFloat 1.1002%float).
Proof. eexists. repeat split. Qed.

(** The submission does happen: when the symbol is known and its tick is
    available, the request goes out at the price taken from that tick. *)
Lemma place_order_submits {W} (rt : Runtime W) (st : Sys W)
    symbol order_type volume sl tp comment info w1 t w2 :
  connected (self st) = true ->
  mt5_symbol_info rt symbol (world st) = (Ret (Some info), w1) ->
  mt5_symbol_info_tick rt symbol w1 = (Ret (Some t), w2) ->
  exists res st' answer,
    Bridge.place_order rt symbol order_type volume VNone sl tp comment st
      = (Ret res, st') /\
    trace st'
    = trace st ++
      [EvSymbolInfo symbol (Ret (Some info));
       EvSymbolInfoTick symbol (Ret (Some t));
       EvOrderSend
         (Bridge.order_request symbol order_type volume
            (VFloat (if Z.eqb order_type ORDER_TYPE_BUY
                     then tick_ask t else tick_bid t))
            sl tp comment)
         answer].
Proof.
  intros Hon Hinfo Htick. unfold Bridge.place_order. run_monad.
  rewrite Hon. cbn [negb]. rewrite Hinfo. cbn. rewrite Htick. cbn.
  destruct (mt5_order_send rt _ w2) as [[[r |] | e] w3]; cbn;
    [destruct (negb _) | |]; eexists _, _, _;
    (split; [reflexivity |]); cbn; now rewrite <- !app_assoc.
Qed.

(** ** Closing a position *)

Lemma close_request_fields p close_type ticket price :
  Bridge.close_request p close_type ticket price !! "action"
    = Some (VInt TRADE_ACTION_DEAL) /\
  Bridge.close_request p close_type ticket price !! "type"
    = Some (VInt close_type) /\
  Bridge.close_request p close_type ticket price !! "position"
    = Some (VInt ticket) /\
  Bridge.close_request p close_type ticket price !! "price"
    = Some (VFloat price).
Proof. repeat split. Qed.

(** C3. Whenever [close_position] on ticket [T] submits a deal, the deal
    was built from the first position [p] the terminal lists for [T] and
    from the tick just fetched for the symbol of [p]: it is a market deal
    that references position [T]; when the recorded side of [p] is buy the
    deal is a sell priced at the bid of that tick, and when the recorded
    side is sell the deal is a buy priced at its ask. *)
Theorem close_position_opposite_side {W} (rt : Runtime W) (st st' : Sys W)
    ticket res evs request answer :
  connected (self st) = true ->
  Bridge.close_position rt ticket st = (res, st') ->
  trace st' = trace st ++ evs ->
  In (EvOrderSend request answer) evs ->
  exists p others t,
    evs = [EvPositionsGet (Some ticket) (Ret (Some (p :: others)));
           EvSymbolInfoTick (pos_symbol p) (Ret (Some t));
           EvOrderSend request answer] /\
    request !! "action" = Some (VInt TRADE_ACTION_DEAL) /\
    request !! "position" = Some (VInt ticket) /\
    (pos_type p = POSITION_TYPE_BUY ->
       request !! "type" = Some (VInt ORDER_TYPE_SELL) /\
       request !! "price" = Some (VFloat (tick_bid t))) /\
    (pos_type p = POSITION_TYPE_SELL ->
       request !! "type" = Some (VInt ORDER_TYPE_BUY) /\
       request !! "price" = Some (VFloat (tick_ask t))).
Proof.
  intros Hon Hrun Htr Hin.
  unfold Bridge.close_position in Hrun. run_monad. rewrite Hon in Hrun.
  split_run Hrun; injection Hrun as <- <-; new_events Htr; subst evs;
    pick_event Hin; injection Hin as <- <-;
    match goal with
    | |- context [Bridge.close_request ?p ?c ?k ?x] =>
        destruct (close_request_fields p c k x) as (Ha & Hty & Hpos & Hpr)
    end;
    eexists _, _, _; (split; [reflexivity |]);
    rewrite Ha, Hty, Hpos, Hpr;
    (split; [reflexivity |]); (split; [reflexivity |]);
    split; intros Hside; rewrite Hside in *;
    first [discriminate | split; reflexivity].
Qed.

Lemma close_position_opposite_side_witness :
  exists p others t,
    [EvPositionsGet (Some 555) (Ret (Some [Fake.long_position]));
     EvSymbolInfoTick "EURUSD" (Ret (Some Fake.quote));
     EvOrderSend Fake.close_long_request (Ret (Some Fake.executed))]
    = [EvPositionsGet (Some 555) (Ret (Some (p :: others)));
       EvSymbolInfoTick (pos_symbol p) (Ret (Some t));
       EvOrderSend Fake.close_long_request (Ret (Some Fake.executed))] /\
    Fake.close_long_request !! "action" = Some (VInt TRADE_ACTION_DEAL) /\
    Fake.close_long_request !! "position" = Some (VInt 555) /\
    (pos_type p = POSITION_TYPE_BUY ->
       Fake.close_long_request !! "type" = Some (VInt ORDER_TYPE_SELL) /\
       Fake.close_long_request !! "price" = Some (VFloat (tick_bid t))) /\
    (pos_type p = POSITION_TYPE_SELL ->
       Fake.close_long_request !! "type" = Some (VInt ORDER_TYPE_BUY) /\
       Fake.close_long_request !! "price" = Some (VFloat (tick_ask t))).
Proof.
  apply (close_position_opposite_side (Fake.terminal Fake.healthy) Fake.online
           (snd (Fake.close_long Fake.online)) 555
           (fst (Fake.close_long Fake.online))).
  - reflexivity.
  - apply surjective_pairing.
  - vm_compute. reflexivity.
  - right. right. left. reflexivity.
Defined.

(** The closing deal does go out when the position and its tick are found. *)
Lemma close_position_submits {W} (rt : Runtime W) (st : Sys W)
    ticket p others w1 t w2 :
  connected (self st) = true ->
  mt5_positions_get rt (Some ticket) (world st)
    = (Ret (Some (p :: others)), w1) ->
  mt5_symbol_info_tick rt (pos_symbol p) w1 = (Ret (Some t), w2) ->
  exists res st' request answer,
    Bridge.close_position rt ticket st = (Ret res, st') /\
    trace st'
    = trace st ++
      [EvPositionsGet (Some ticket) (Ret (Some (p :: others)));
       EvSymbolInfoTick (pos_symbol p) (Ret (Some t));
       EvOrderSend request answer].
Proof.
  intros Hon Hpos Htick. unfold Bridge.close_position. run_monad.
  rewrite Hon. cbn [negb]. rewrite Hpos. cbn. rewrite Htick. cbn.
  destruct (mt5_order_send rt _ w2) as [[[r |] | e] w3]; cbn;
    [destruct (negb _) | |]; eexists _, _, _, _;
    (split; [reflexivity |]); cbn; now rewrite <- !app_assoc.
Qed.

(** ** Shape of a trade result *)

(** Decides both halves of the statement once the answer dictionary and
    the appended events are explicit. *)
Ltac settle_result :=
  unfold deal_done; cbn [existsb accepted orb];
  repeat match goal with
         | E : negb ?c = _ |- _ =>
             destruct c; cbn [negb] in E; try discriminate E; clear E
         end;
  split;
  [ split;
    [ first [ reflexivity
            | intros [? Hx]; vm_compute in Hx; discriminate Hx ]
    | first [ intros _; eexists; reflexivity
            | intros Hx; discriminate Hx ] ]
  | first [ intros Hx; vm_compute in Hx; discriminate Hx
          | intros _; reflexivity ] ].

(** C10. [place_order] and [close_position] never raise: they answer a
    dictionary.  It holds the key ["error"] exactly when the operation
    failed, that is, unless the terminal accepted the submitted deal with
    [TRADE_RETCODE_DONE]; a [place_order] answer without ["error"] has
    exactly the keys success, order_id, retcode and comment, and a
    [close_position] answer without ["error"] has exactly the keys success,
    order_id and retcode. *)
Theorem trade_result_keys {W} (rt : Runtime W) (st st' : Sys W) res evs :
  trace st' = trace st ++ evs ->
  (forall symbol order_type volume price sl tp comment,
      Bridge.place_order rt symbol order_type volume price sl tp comment st
        = (res, st') ->
      exists d : pydict,
        res = Ret d /\
        (is_Some (d !! "error") <-> deal_done evs = false) /\
        (d !! "error" = None ->
           dom d = {[ "success"; "order_id"; "retcode"; "comment" ]})) /\
  (forall ticket,
      Bridge.close_position rt ticket st = (res, st') ->
      exists d : pydict,
        res = Ret d /\
        (is_Some (d !! "error") <-> deal_done evs = false) /\
        (d !! "error" = None ->
           dom d = {[ "success"; "order_id"; "retcode" ]})).
Proof.
  intros Htr. split; intros.
  - unfold Bridge.place_order in H. run_monad.
    split_run H; injection H as <- <-; new_events Htr; subst evs;
      (eexists; split; [reflexivity |]); settle_result.
  - unfold Bridge.close_position in H. run_monad.
    split_run H; injection H as <- <-; new_events Htr; subst evs;
      (eexists; split; [reflexivity |]); settle_result.
Qed.

Lemma trade_result_keys_witness :
  exists d : pydict,
    fst (Fake.buy Fake.online) = Ret d /\
    (is_Some (d !! "error") <->
     deal_done
       [EvSymbolInfo "EURUSD" (Ret (Some {| sym_name := "EURUSD" |}));
        EvSymbolInfoTick "EURUSD" (Ret (Some Fake.quote));
        EvOrderSend Fake.buy_request (Ret (Some Fake.executed))] = false) /\
    (d !! "error" = None ->
       dom d = {[ "success"; "order_id"; "retcode"; "comment" ]}).
Proof.
  refine (proj1 (trade_result_keys (Fake.terminal Fake.healthy) Fake.online
                   (snd (Fake.buy Fake.online)) (fst (Fake.buy Fake.online))
                   _ _)
            "EURUSD" ORDER_TYPE_BUY (VFloat 0.01%float) VNone VNone VNone
            (VStr "WingZero") _).
  - vm_compute. reflexivity.
  - apply surjective_pairing.
Defined.

(** A rejected deal answers the error key alone. *)
Example rejected_order_has_error :
  fst (Bridge.place_order (Fake.terminal Fake.broke) "EURUSD" ORDER_TYPE_SELL
         (VFloat 0.01%float) VNone VNone VNone (VStr "WingZero") Fake.online)
  = Ret (Bridge.error_dict "Order failed: No money").
Proof. reflexivity. Qed.

(** ** Connecting again *)

Lemma count_events_app kind (l1 l2 : list event) :
  count_events kind (l1 ++ l2)
  = (count_events kind l1 + count_events kind l2)%nat.
Proof. unfold count_events. now rewrite List.filter_app, length_app. Qed.

(** One call of [connect]: it never raises, it starts with exactly one
    [mt5.initialize()], it starts no thread and never clears the status. *)
Lemma connect_events {W} (rt : Runtime W) login password server st r st' :
  Bridge.connect rt login password server st = (r, st') ->
  exists b evs,
    r = Ret b /\
    trace st' = trace st ++ evs /\
    count_events is_initialize evs = 1%nat /\
    count_events is_thread_start evs = 0%nat /\
    running (self st') = running (self st) /\
    (connected (self st) = true -> connected (self st') = true).
Proof.
  intros Hrun. unfold Bridge.connect in Hrun. run_monad.
  split_run Hrun; injection Hrun as <- <-;
    eexists _, _; (split; [reflexivity |]);
    (split; [cbn [trace]; repeat rewrite <- app_assoc; reflexivity |]);
    repeat split; auto.
Qed.

Lemma start_data_stream_events {W} (st : Sys W) :
  exists st',
    @Bridge.start_data_stream W st = (Ret tt, st') /\
    running (self st') = true /\
    trace st' = trace st ++ (if running (self st) then [] else [EvThreadStart]).
Proof.
  unfold Bridge.start_data_stream. run_monad.
  destruct (running (self st)) eqn:Hrunning; eexists; repeat split; auto.
  cbn. now rewrite app_nil_r.
Qed.

Lemma connect_mt5_events {W} (rt : Runtime W) login password server st r st' :
  Api.connect_mt5 rt login password server st = (r, st') ->
  exists evs,
    trace st' = trace st ++ evs /\
    count_events is_initialize evs = 1%nat /\
    (running (self st) = true ->
       running (self st') = true /\ count_events is_thread_start evs = 0%nat) /\
    (running (self st) = false ->
       (count_events is_thread_start evs <= 1)%nat /\
       (count_events is_thread_start evs = 1%nat -> running (self st') = true)).
Proof.
  intros Hrun. unfold Api.connect_mt5 in Hrun. unfold bind at 1 in Hrun.
  destruct (Bridge.connect rt login password server st) as [r0 st0] eqn:Hc.
  destruct (connect_events rt _ _ _ _ _ _ Hc)
    as (b & evs & -> & Htr & Hinit & Hstart & Hrunning & _).
  destruct b.
  - destruct (start_data_stream_events st0) as (st1 & Hs & Hr1 & Htr1).
    unfold bind, ret in Hrun. rewrite Hs in Hrun. injection Hrun as <- <-.
    exists (evs ++ (if running (self st0) then [] else [EvThreadStart])).
    rewrite Htr1, Htr, <- app_assoc. split; [reflexivity |].
    rewrite !count_events_app, Hinit, Hstart, Hrunning.
    destruct (running (self st)); cbn; repeat split; auto; discriminate.
  - unfold ret in Hrun. injection Hrun as <- <-.
    exists evs. rewrite Hinit, Hstart, Hrunning.
    repeat split; auto; try lia; discriminate.
Qed.

(** C4 (as the code has it). [connect] has no test for a live session:
    each of two successive connect requests performs its own
    [mt5.initialize()], so two session-level connects happen in total, also
    when the bridge is already connected.  The start of the stream is
    idempotent: the two requests start at most one worker thread, and none
    when the stream is already running. *)
Theorem connect_twice_one_stream_start {W} (rt : Runtime W)
    login1 password1 server1 login2 password2 server2
    (st st1 st2 : Sys W) r1 r2 evs :
  Api.connect_mt5 rt login1 password1 server1 st = (r1, st1) ->
  Api.connect_mt5 rt login2 password2 server2 st1 = (r2, st2) ->
  trace st2 = trace st ++ evs ->
  count_events is_initialize evs = 2%nat /\
  (count_events is_thread_start evs <= 1)%nat /\
  (running (self st) = true -> count_events is_thread_start evs = 0%nat).
Proof.
  intros H1 H2 Htr.
  destruct (connect_mt5_events rt _ _ _ _ _ _ H1)
    as (evs1 & Htr1 & Hi1 & Hon1 & Hoff1).
  destruct (connect_mt5_events rt _ _ _ _ _ _ H2)
    as (evs2 & Htr2 & Hi2 & Hon2 & Hoff2).
  rewrite Htr2, Htr1, <- app_assoc in Htr. apply app_inv_head in Htr.
  subst evs. rewrite !count_events_app, Hi1, Hi2.
  split; [reflexivity |].
  destruct (running (self st)) eqn:Hr.
  - destruct (Hon1 eq_refl) as [Hr1 Hn1]. destruct (Hon2 Hr1) as [_ Hn2].
    rewrite Hn1, Hn2. split; [lia | reflexivity].
  - split; [| discriminate].
    destruct (Hoff1 eq_refl) as [Hle1 Hone1].
    destruct (running (self st1)) eqn:Hr1.
    + destruct (Hon2 eq_refl) as [_ Hn2]. lia.
    + destruct (Hoff2 eq_refl) as [Hle2 _].
      assert (count_events is_thread_start evs1 <> 1%nat)
        by (intros E; apply Hone1 in E; discriminate).
      lia.
Qed.

Lemma connect_twice_one_stream_start_witness :
  count_events is_initialize (trace Fake.connected_twice) = 2%nat /\
  (count_events is_thread_start (trace Fake.connected_twice) <= 1)%nat /\
  (running (self Fake.fresh) = true ->
   count_events is_thread_start (trace Fake.connected_twice) = 0%nat).
Proof.
  apply (connect_twice_one_stream_start (Fake.terminal Fake.healthy)
           VNone VNone VNone VNone VNone VNone
           Fake.fresh Fake.connected_once Fake.connected_twice
           (Ret Fake.connect_ok) (Ret Fake.connect_ok)).
  - vm_compute. reflexivity.
  - vm_compute. reflexivity.
  - reflexivity.
Defined.

(** C4 as the specification states it does not hold: on a bridge that the
    first request connected, the second request is answered with success
    but is no no-op; it calls the terminal again, and the two requests
    together hold two [mt5.initialize()] calls. *)
Lemma connect_again_is_not_a_noop :
  Fake.connect_request Fake.fresh = (Ret Fake.connect_ok, Fake.connected_once) /\
  connected (self Fake.connected_once) = true /\
  Fake.connect_request Fake.connected_once
    = (Ret Fake.connect_ok, Fake.connected_twice) /\
  Fake.connected_twice <> Fake.connected_once /\
  count_events is_initialize (trace Fake.connected_twice) = 2%nat /\
  ~ (count_events is_initialize (trace Fake.connected_twice) <= 1)%nat.
Proof.
  split; [vm_compute; reflexivity |].
  split; [reflexivity |].
  split; [vm_compute; reflexivity |].
  split; [| split; [reflexivity | vm_compute; lia]].
  intros E. apply (f_equal (fun s => length (trace s))) in E.
  vm_compute in E. discriminate E.
Qed.

(** ** Read accessors and the stored snapshot *)

Lemma get_account_info_run {W} (rt : Runtime W) (st st' : Sys W) answer w res :
  connected (self st) = true ->
  mt5_account_info rt (world st) = (answer, w) ->
  Bridge.get_account_info rt st = (res, st') ->
  trace st' = trace st ++ [EvAccountInfo answer] /\
  match answer with
  | Ret (Some a) =>
      res = Ret (Some (account_asdict a)) /\
      account_info (self st') = Some (account_asdict a)
  | _ => res = Ret None /\ account_info (self st') = account_info (self st)
  end.
Proof.
  intros Hon Hanswer Hrun. unfold Bridge.get_account_info in Hrun.
  run_monad. rewrite Hon in Hrun. cbn [negb] in Hrun. rewrite Hanswer in Hrun.
  destruct answer as [[a |] | e]; injection Hrun as <- <-; auto.
Qed.

Lemma get_positions_run {W} (rt : Runtime W) (st st' : Sys W) answer w res :
  connected (self st) = true ->
  mt5_positions_get rt None (world st) = (answer, w) ->
  Bridge.get_positions rt st = (res, st') ->
  trace st' = trace st ++ [EvPositionsGet None answer] /\
  match answer with
  | Ret (Some (p :: l)) =>
      res = Ret (map position_asdict (p :: l)) /\
      positions (self st') = map position_asdict (p :: l)
  | _ => res = Ret [] /\ positions (self st') = positions (self st)
  end.
Proof.
  intros Hon Hanswer Hrun. unfold Bridge.get_positions in Hrun.
  run_monad. rewrite Hon in Hrun. cbn [negb] in Hrun. rewrite Hanswer in Hrun.
  destruct answer as [[[| p l] |] | e]; injection Hrun as <- <-; auto.
Qed.

Lemma get_orders_run {W} (rt : Runtime W) (st st' : Sys W) answer w res :
  connected (self st) = true ->
  mt5_orders_get rt (world st) = (answer, w) ->
  Bridge.get_orders rt st = (res, st') ->
  trace st' = trace st ++ [EvOrdersGet answer] /\
  match answer with
  | Ret (Some (o :: l)) =>
      res = Ret (map order_asdict (o :: l)) /\
      orders (self st') = map order_asdict (o :: l)
  | _ => res = Ret [] /\ orders (self st') = orders (self st)
  end.
Proof.
  intros Hon Hanswer Hrun. unfold Bridge.get_orders in Hrun.
  run_monad. rewrite Hon in Hrun. cbn [negb] in Hrun. rewrite Hanswer in Hrun.
  destruct answer as [[[| o l] |] | e]; injection Hrun as <- <-; auto.
Qed.

(** C5 (as the code has it). On a connected bridge each read accessor
    queries the terminal once.  When the terminal answers a non-empty
    result ([account_info] an account, [positions_get] and [orders_get] at
    least one record) the accessor stores the fresh snapshot in the bridge
    and returns the stored value.  When the terminal answers null or an
    empty sequence, or raises, the accessor returns the empty value ([None]
    for the account, the empty list for positions and orders) and the
    stored field keeps its previous content. *)
Theorem accessors_store_nonempty_answers {W} (rt : Runtime W) (st : Sys W) :
  connected (self st) = true ->
  (forall a w,
      mt5_account_info rt (world st) = (Ret (Some a), w) ->
      exists st',
        Bridge.get_account_info rt st = (Ret (Some (account_asdict a)), st') /\
        account_info (self st') = Some (account_asdict a)) /\
  (forall p l w,
      mt5_positions_get rt None (world st) = (Ret (Some (p :: l)), w) ->
      exists st',
        Bridge.get_positions rt st = (Ret (map position_asdict (p :: l)), st') /\
        positions (self st') = map position_asdict (p :: l)) /\
  (forall o l w,
      mt5_orders_get rt (world st) = (Ret (Some (o :: l)), w) ->
      exists st',
        Bridge.get_orders rt st = (Ret (map order_asdict (o :: l)), st') /\
        orders (self st') = map order_asdict (o :: l)) /\
  (forall answer w,
      mt5_account_info rt (world st) = (answer, w) ->
      (forall a, answer <> Ret (Some a)) ->
      exists st',
        Bridge.get_account_info rt st = (Ret None, st') /\
        account_info (self st') = account_info (self st)) /\
  (forall answer w,
      mt5_positions_get rt None (world st) = (answer, w) ->
      (forall p l, answer <> Ret (Some (p :: l))) ->
      exists st',
        Bridge.get_positions rt st = (Ret [], st') /\
        positions (self st') = positions (self st)) /\
  (forall answer w,
      mt5_orders_get rt (world st) = (answer, w) ->
      (forall o l, answer <> Ret (Some (o :: l))) ->
      exists st',
        Bridge.get_orders rt st = (Ret [], st') /\
        orders (self st') = orders (self st)).
Proof.
  intros Hon.
  split; [| split; [| split; [| split; [| split]]]].
  - intros a w Hanswer.
    destruct (Bridge.get_account_info rt st) as [res st'] eqn:Hrun.
    destruct (get_account_info_run rt _ _ _ _ _ Hon Hanswer Hrun) as (_ & -> & Hst).
    eauto.
  - intros p l w Hanswer.
    destruct (Bridge.get_positions rt st) as [res st'] eqn:Hrun.
    destruct (get_positions_run rt _ _ _ _ _ Hon Hanswer Hrun) as (_ & -> & Hst).
    eauto.
  - intros o l w Hanswer.
    destruct (Bridge.get_orders rt st) as [res st'] eqn:Hrun.
    destruct (get_orders_run rt _ _ _ _ _ Hon Hanswer Hrun) as (_ & -> & Hst).
    eauto.
  - intros answer w Hanswer Hempty.
    destruct (Bridge.get_account_info rt st) as [res st'] eqn:Hrun.
    destruct (get_account_info_run rt _ _ _ _ _ Hon Hanswer Hrun) as (_ & Hcase).
    destruct answer as [[a |] | e]; [destruct (Hempty a eq_refl) | |];
      destruct Hcase as (-> & Hst); eauto.
  - intros answer w Hanswer Hempty.
    destruct (Bridge.get_positions rt st) as [res st'] eqn:Hrun.
    destruct (get_positions_run rt _ _ _ _ _ Hon Hanswer Hrun) as (_ & Hcase).
    destruct answer as [[[| p l] |] | e]; [| destruct (Hempty p l eq_refl) | |];
      destruct Hcase as (-> & Hst); eauto.
  - intros answer w Hanswer Hempty.
    destruct (Bridge.get_orders rt st) as [res st'] eqn:Hrun.
    destruct (get_orders_run rt _ _ _ _ _ Hon Hanswer Hrun) as (_ & Hcase).
    destruct answer as [[[| o l] |] | e]; [| destruct (Hempty o l eq_refl) | |];
      destruct Hcase as (-> & Hst); eauto.
Qed.

Lemma accessors_store_nonempty_answers_witness :
  exists st',
    Bridge.get_positions (Fake.terminal Fake.healthy) Fake.online
      = (Ret (map position_asdict [Fake.long_position; Fake.short_position]),
         st') /\
    positions (self st')
      = map position_asdict [Fake.long_position; Fake.short_position].
Proof.
  refine (proj1 (proj2 (accessors_store_nonempty_answers
                          (Fake.terminal Fake.healthy) Fake.online _))
            Fake.long_position [Fake.short_position] 1%nat _);
    reflexivity.
Defined.

(** C5 as the specification states it does not hold when the venue answers
    an empty result: the accessor returns the empty list while the bridge
    keeps the snapshot of the position that is gone. *)
Lemma get_positions_keeps_stale_snapshot :
  exists st',
    Bridge.get_positions (Fake.terminal Fake.flat) Fake.holding = (Ret [], st') /\
    trace st' = [EvPositionsGet None (Ret (Some []))] /\
    positions (self st') = [position_asdict Fake.long_position] /\
    positions (self st') <> [].
Proof. eexists. repeat split. discriminate. Qed.

(** ** What makes [connect] succeed *)

(** C6 (as the code has it). [connect] returns success exactly when it
    reached the symbol query and that query answered; this needs the
    account snapshot, which is then stored with the status set to
    connected.  An answer of the symbol query that is null or empty is no
    failure: [connect] returns success, the status is connected and the
    symbol list is left as it was; a non-empty answer stores the names of
    its first 50 symbols. *)
Theorem connect_succeeds_on_any_symbol_answer {W} (rt : Runtime W)
    login password server (st st' : Sys W) res evs :
  Bridge.connect rt login password server st = (res, st') ->
  trace st' = trace st ++ evs ->
  (res = Ret true <-> exists answer, In (EvSymbolsGet (Ret answer)) evs) /\
  (res = Ret true ->
     connected (self st') = true /\
     exists a,
       In (EvAccountInfo (Ret (Some a))) evs /\
       account_info (self st') = Some (account_asdict a)) /\
  (forall answer,
     In (EvSymbolsGet (Ret answer)) evs ->
     symbols (self st')
     = match answer with
       | Some (x :: l) => map sym_name (firstn 50 (x :: l))
       | _ => symbols (self st)
       end).
Proof.
  intros Hrun Htr. unfold Bridge.connect in Hrun. run_monad.
  split_run Hrun; injection Hrun as <- <-; new_events Htr; subst evs.
  all: split;
    [ split;
      [ intros Hres; first [discriminate Hres | eexists; cbn; eauto 8]
      | intros [answer Hin]; pick_event Hin; reflexivity ] |].
  all: split;
    [ intros Hres;
      first [ discriminate Hres
            | split; [reflexivity |];
              eexists; split; [cbn; eauto 8 | reflexivity] ]
    | intros answer Hin; pick_event Hin; injection Hin as <-; reflexivity ].
Qed.

Lemma connect_succeeds_on_any_symbol_answer_witness :
  let run :=
    Bridge.connect (Fake.terminal Fake.no_symbols) VNone VNone VNone Fake.fresh in
  let evs :=
    [EvInitialize (Ret true); EvAccountInfo (Ret (Some Fake.account));
     EvSymbolsGet (Ret None)] in
  (fst run = Ret true <-> exists answer, In (EvSymbolsGet (Ret answer)) evs) /\
  (fst run = Ret true ->
     connected (self (snd run)) = true /\
     exists a,
       In (EvAccountInfo (Ret (Some a))) evs /\
       account_info (self (snd run)) = Some (account_asdict a)) /\
  (forall answer,
     In (EvSymbolsGet (Ret answer)) evs ->
     symbols (self (snd run))
     = match answer with
       | Some (x :: l) => map sym_name (firstn 50 (x :: l))
       | _ => symbols (self Fake.fresh)
       end).
Proof.
  cbv zeta.
  apply (connect_succeeds_on_any_symbol_answer (Fake.terminal Fake.no_symbols)
           VNone VNone VNone Fake.fresh).
  - apply surjective_pairing.
  - reflexivity.
Defined.

(** C6 as the specification states it does not hold when the symbol query
    answers [None]: [connect] reports success and the status is connected,
    with no symbol list fetched. *)
Lemma connect_succeeds_without_symbol_list :
  exists st',
    Bridge.connect (Fake.terminal Fake.no_symbols) VNone VNone VNone Fake.fresh
      = (Ret true, st') /\
    trace st' = [EvInitialize (Ret true);
                 EvAccountInfo (Ret (Some Fake.account));
                 EvSymbolsGet (Ret None)] /\
    connected (self st') = true /\
    symbols (self st') = [].
Proof. eexists. repeat split. Qed.

(** ** Disconnecting *)

(** When [mt5.shutdown()] returns, [disconnect] returns, the stream is
    told to stop and the status is disconnected. *)
Lemma disconnect_returns {W} (rt : Runtime W) (st : Sys W) w :
  mt5_shutdown rt (world st) = (Ret tt, w) ->
  exists st',
    Bridge.disconnect rt st = (Ret tt, st') /\
    connected (self st') = false /\
    running (self st') = false /\
    trace st'
    = trace st ++ (if data_thread (self st) then [EvThreadJoin] else [])
               ++ [EvShutdown (Ret tt)].
Proof.
  intros Hdown. unfold Bridge.disconnect. run_monad.
  cbn [set_running data_thread].
  destruct (data_thread (self st)); cbn; rewrite Hdown; eexists;
    repeat split; cbn; now rewrite <- ?app_assoc.
Qed.

(** On a bridge that is already disconnected the bridge object is left as
    it was; [mt5.shutdown()] is still called. *)
Lemma disconnect_again_keeps_bridge {W} (rt : Runtime W) (st : Sys W) w :
  connected (self st) = false ->
  running (self st) = false ->
  mt5_shutdown rt (world st) = (Ret tt, w) ->
  exists st',
    Bridge.disconnect rt st = (Ret tt, st') /\ self st' = self st.
Proof.
  intros Hoff Hidle Hdown. unfold Bridge.disconnect. run_monad.
  cbn [set_running data_thread].
  destruct st as [[c a sy m p o d r] w0 tr]. cbn in *. subst c r.
  destruct d; cbn; rewrite Hdown; eexists; split; reflexivity.
Qed.

(** An exception of [mt5.shutdown()] leaves [disconnect] through its
    caller, before the status is cleared. *)
Lemma disconnect_propagates {W} (rt : Runtime W) (st : Sys W) e w :
  mt5_shutdown rt (world st) = (Raise e, w) ->
  exists st',
    Bridge.disconnect rt st = (Raise e, st') /\
    connected (self st') = connected (self st).
Proof.
  intros Hdown. unfold Bridge.disconnect. run_monad.
  cbn [set_running data_thread].
  destruct (data_thread (self st)); cbn; rewrite Hdown; eexists;
    split; reflexivity.
Qed.

(** C7 (the code at the failing input). [disconnect] wraps no terminal
    call: with a terminal whose [mt5.shutdown()] raises, [disconnect] on a
    connected bridge raises the same exception after joining the worker,
    and the status is still connected; the request handler raises with
    it. *)
Theorem disconnect_raises_with_shutdown :
  exists st',
    Bridge.disconnect (Fake.terminal Fake.stuck) Fake.online
      = (Raise "IPC send failed", st') /\
    Api.disconnect_mt5 (Fake.terminal Fake.stuck) Fake.online
      = (Raise "IPC send failed", st') /\
    trace st' = [EvThreadJoin; EvShutdown (Raise "IPC send failed")] /\
    connected (self st') = true /\
    running (self st') = false.
Proof. eexists. repeat split. Qed.

(** ** One iteration of the streaming loop *)

Lemma for_each_app {W A} (l1 l2 : list A) (body : A -> M W unit) st :
  for_each (l1 ++ l2) body st
  = bind (for_each l1 body) (fun _ => for_each l2 body) st.
Proof.
  revert st. induction l1 as [| x l1 IH]; intros st; cbn [app for_each].
  - reflexivity.
  - unfold bind. destruct (body x st) as [[[] | e] st1].
    + apply IH.
    + reflexivity.
Qed.

(** One symbol of the loop: the step never raises and keeps the status;
    a tick that was fetched is stored under its symbol and emitted; the
    entries of all other symbols stay. *)
Lemma stream_symbol_run {W} (rt : Runtime W) symbol (st : Sys W) :
  connected (self st) = true ->
  exists st' evs,
    Bridge.stream_symbol rt symbol st = (Ret tt, st') /\
    connected (self st') = true /\
    trace st' = trace st ++ evs /\
    (forall k, k <> symbol ->
       market_data (self st') !! k = market_data (self st) !! k) /\
    (forall t w,
       mt5_symbol_info_tick rt symbol (world st) = (Ret (Some t), w) ->
       market_data (self st') !! symbol = Some (Bridge.tick_data symbol t) /\
       evs = [EvSymbolInfoTick symbol (Ret (Some t));
              EvEmit "market_data" (JDict (Bridge.tick_data symbol t))]) /\
    (forall answer w,
       mt5_symbol_info_tick rt symbol (world st) = (answer, w) ->
       (forall t, answer <> Ret (Some t)) ->
       market_data (self st') = market_data (self st) /\
       evs = [EvSymbolInfoTick symbol answer]).
Proof.
  intros Hon. unfold Bridge.stream_symbol, Bridge.get_market_data. run_monad.
  rewrite Hon. cbn [negb].
  destruct (mt5_symbol_info_tick rt symbol (world st)) as [[[t |] | e] w0];
    cbn; eexists _, _; (split; [reflexivity |]); cbn;
    (split; [assumption |]);
    (split; [rewrite <- ?app_assoc; reflexivity |]);
    (split; [intros k Hk; now rewrite ?lookup_insert_ne by congruence |]).
  - split.
    + intros t' w' [= <- <-]. now rewrite lookup_insert_eq.
    + intros answer w' [= <- <-] Hfail. destruct (Hfail t eq_refl).
  - split.
    + intros t' w' [=].
    + intros answer w' [= <- <-] _. split; reflexivity.
  - split.
    + intros t' w' [=].
    + intros answer w' [= <- <-] _. split; reflexivity.
Qed.

(** The loop over a list of symbols never raises, whatever the fetches
    answer, and touches the entries of these symbols only. *)
Lemma for_each_stream_run {W} (rt : Runtime W) (l : list string) (st : Sys W) :
  connected (self st) = true ->
  exists st' evs,
    for_each l (Bridge.stream_symbol rt) st = (Ret tt, st') /\
    connected (self st') = true /\
    trace st' = trace st ++ evs /\
    (forall k, ~ In k l ->
       market_data (self st') !! k = market_data (self st) !! k).
Proof.
  revert st. induction l as [| s l IH]; intros st Hon.
  - exists st, []. cbn. rewrite app_nil_r. auto.
  - destruct (stream_symbol_run rt s st Hon)
      as (st1 & evs1 & Hrun1 & Hon1 & Htr1 & Hkeep1 & _).
    destruct (IH st1 Hon1) as (st2 & evs2 & Hrun2 & Hon2 & Htr2 & Hkeep2).
    exists st2, (evs1 ++ evs2). cbn [for_each]. unfold bind. rewrite Hrun1.
    repeat split; auto.
    + now rewrite Htr2, Htr1, app_assoc.
    + intros k Hk. cbn [In] in Hk.
      rewrite Hkeep2 by tauto. apply Hkeep1. intros ->. tauto.
Qed.

(** The periodic refresh neither raises nor touches the tick map. *)
Lemma get_positions_quiet {W} (rt : Runtime W) (st : Sys W) :
  exists res st' evs,
    Bridge.get_positions rt st = (Ret res, st') /\
    trace st' = trace st ++ evs /\
    market_data (self st') = market_data (self st).
Proof.
  unfold Bridge.get_positions. run_monad.
  destruct (connected (self st)); cbn [negb].
  - destruct (mt5_positions_get rt None (world st)) as [[[[| p l] |] | e] w0];
      cbn; eexists _, _, _; repeat split.
  - exists [], st, []. now rewrite app_nil_r.
Qed.

Lemma get_account_info_quiet {W} (rt : Runtime W) (st : Sys W) :
  exists res st' evs,
    Bridge.get_account_info rt st = (Ret res, st') /\
    trace st' = trace st ++ evs /\
    market_data (self st') = market_data (self st).
Proof.
  unfold Bridge.get_account_info. run_monad.
  destruct (connected (self st)); cbn [negb].
  - destruct (mt5_account_info rt (world st)) as [[[a |] | e] w0];
      cbn; eexists _, _, _; repeat split.
  - exists None, st, []. now rewrite app_nil_r.
Qed.

Lemma major_pairs_distinct : NoDup Bridge.major_pairs.
Proof. apply (bool_decide_unpack _). vm_compute. exact I. Qed.

Lemma later_pairs_differ before symbol after :
  Bridge.major_pairs = before ++ symbol :: after -> ~ In symbol after.
Proof.
  intros Hsplit Hin. pose proof major_pairs_distinct as Hnd.
  rewrite Hsplit in Hnd. apply NoDup_app in Hnd as (_ & _ & Hnd).
  apply NoDup_cons in Hnd as [Hnotin _].
  apply Hnotin, list_elem_of_In, Hin.
Qed.

(** C8. In one iteration of the streaming loop, take any symbol of the
    watch-list and the state [mid] in which the loop reaches it, whatever
    the fetches for the symbols before it answered (a tick, [None] or an
    exception).  If the fetch for the symbol answers a tick, the iteration
    runs to its end without raising, the tick was sampled, its dictionary
    was emitted as a [market_data] event and it is the entry stored for the
    symbol when the iteration ends, whatever the fetches for the symbols
    after it answer. *)
Theorem stream_iteration_skips_failed_symbol {W} (rt : Runtime W)
    (st mid : Sys W) before symbol after t w :
  Bridge.major_pairs = before ++ symbol :: after ->
  connected (self st) = true ->
  for_each before (Bridge.stream_symbol rt) st = (Ret tt, mid) ->
  mt5_symbol_info_tick rt symbol (world mid) = (Ret (Some t), w) ->
  exists st' evs,
    Bridge.stream_iteration rt st = (Ret tt, st') /\
    trace st' = trace st ++ evs /\
    In (EvSymbolInfoTick symbol (Ret (Some t))) evs /\
    In (EvEmit "market_data" (JDict (Bridge.tick_data symbol t))) evs /\
    market_data (self st') !! symbol = Some (Bridge.tick_data symbol t).
Proof.
  intros Hsplit Hon Hbefore Hfetch.
  destruct (for_each_stream_run rt before st Hon)
    as (mid' & evs0 & Hrun0 & Hon0 & Htr0 & _).
  rewrite Hbefore in Hrun0. injection Hrun0 as <-.
  destruct (stream_symbol_run rt symbol mid Hon0)
    as (st1 & evs1 & Hrun1 & Hon1 & Htr1 & _ & Hstored & _).
  destruct (Hstored t w Hfetch) as [Hentry ->].
  destruct (for_each_stream_run rt after st1 Hon1)
    as (st2 & evs2 & Hrun2 & Hon2 & Htr2 & Hkeep2).
  assert (Hloop : for_each Bridge.major_pairs (Bridge.stream_symbol rt) st
                  = (Ret tt, st2)).
  { rewrite Hsplit, for_each_app. unfold bind. rewrite Hbefore.
    cbn [for_each]. unfold bind. now rewrite Hrun1. }
  assert (Hentry2 : market_data (self st2) !! symbol
                    = Some (Bridge.tick_data symbol t)).
  { rewrite Hkeep2; [exact Hentry | eapply later_pairs_differ; eauto]. }
  assert (Htrace : trace st2
                   = trace st ++ evs0
                     ++ [EvSymbolInfoTick symbol (Ret (Some t));
                         EvEmit "market_data" (JDict (Bridge.tick_data symbol t))]
                     ++ evs2).
  { now rewrite Htr2, Htr1, Htr0, <- !app_assoc. }
  unfold Bridge.stream_iteration, try_catch.
  unfold bind at 1. rewrite Hloop.
  unfold bind at 1. unfold Bridge.now at 1.
  destruct (time_time rt (world st2)) as [clock w2].
  set (st3 := Build_Sys (self st2) w2 (trace st2)).
  unfold bind at 1.
  destruct (Z.eqb (clock mod 5) 0).
  - destruct (get_positions_quiet rt st3) as (ps & st4 & evs4 & Hrun4 & Htr4 & Hmd4).
    destruct (get_account_info_quiet rt st4)
      as (acc & st5 & evs5 & Hrun5 & Htr5 & Hmd5).
    unfold bind at 1. rewrite Hrun4. unfold bind at 1. rewrite Hrun5.
    unfold Bridge.emit, Bridge.sleep. run_monad.
    eexists _, _. split; [reflexivity |]. cbn [self trace].
    rewrite Htr5, Htr4. subst st3. cbn [self trace] in *.
    rewrite Htrace, <- !app_assoc.
    split; [reflexivity |].
    rewrite Hmd5, Hmd4.
    repeat split; auto; apply in_or_app; right; cbn; auto.
  - unfold Bridge.sleep. run_monad.
    eexists _, _. split; [reflexivity |]. subst st3. cbn [self trace].
    rewrite Htrace, <- !app_assoc.
    split; [reflexivity |].
    repeat split; auto; apply in_or_app; right; cbn; auto.
Qed.


Lemma stream_iteration_skips_failed_symbol_witness :
  exists st' evs,
    Bridge.stream_iteration (Fake.terminal Fake.patchy) Fake.online
      = (Ret tt, st') /\
    trace st' = trace Fake.online ++ evs /\
    In (EvSymbolInfoTick "USDJPY" (Ret (Some Fake.quote))) evs /\
    In (EvEmit "market_data" (JDict (Bridge.tick_data "USDJPY" Fake.quote)))
       evs /\
    market_data (self st') !! "USDJPY"
      = Some (Bridge.tick_data "USDJPY" Fake.quote).
Proof.
  apply (stream_iteration_skips_failed_symbol (Fake.terminal Fake.patchy)
           Fake.online
           (snd (for_each ["EURUSD"; "GBPUSD"]
                   (Bridge.stream_symbol (Fake.terminal Fake.patchy))
                   Fake.online))
           ["EURUSD"; "GBPUSD"] "USDJPY"
           ["USDCHF"; "AUDUSD"; "USDCAD"; "NZDUSD"] Fake.quote 3%nat).
  - reflexivity.
  - reflexivity.
  - vm_compute. reflexivity.
  - vm_compute. reflexivity.
Defined.

(** With the EURUSD fetch raising and the GBPUSD fetch answering [None],
    one iteration stores the five remaining pairs and nothing else. *)
Example patchy_iteration_stores_the_rest :
  dom (market_data
         (self (snd (Bridge.stream_iteration (Fake.terminal Fake.patchy)
                       Fake.online))))
  = {[ "USDJPY"; "USDCHF"; "AUDUSD"; "USDCAD"; "NZDUSD" ]}.
Proof. vm_compute. reflexivity. Qed.

(** * Further properties of the bridge *)

(** ** More on [connect] *)

(** X1. [connect] writes to the bridge only after the account snapshot
    has been fetched: a run in which no account was answered reports
    failure and leaves the bridge object exactly as it was (status,
    account, symbols and all). *)
Theorem connect_without_account_keeps_bridge {W} (rt : Runtime W)
    login password server (st st' : Sys W) res evs :
  Bridge.connect rt login password server st = (res, st') ->
  trace st' = trace st ++ evs ->
  (forall a, ~ In (EvAccountInfo (Ret (Some a))) evs) ->
  res = Ret false /\ self st' = self st.
Proof.
  intros Hrun Htr Hnone. unfold Bridge.connect in Hrun. run_monad.
  split_run Hrun; injection Hrun as <- <-; new_events Htr; subst evs;
    first [ split; reflexivity
          | exfalso; eapply Hnone; cbn; eauto 8 ].
Qed.

Lemma connect_without_account_keeps_bridge_witness :
  fst (Bridge.connect (Fake.terminal Scenario.unreachable)
         VNone VNone VNone Fake.online) = Ret false /\
  self (snd (Bridge.connect (Fake.terminal Scenario.unreachable)
               VNone VNone VNone Fake.online)) = self Fake.online.
Proof.
  apply (connect_without_account_keeps_bridge
           (Fake.terminal Scenario.unreachable) VNone VNone VNone Fake.online
           _ _ [EvInitialize (Ret false)]).
  - apply surjective_pairing.
  - reflexivity.
  - intros a Hin. pick_event Hin.
Defined.

(** X2. When the symbol query raises, [connect] reports failure although
    it has already stored the account and set the status: the bridge is
    left connected, with the symbol list as it was. *)
Theorem connect_symbol_query_raises {W} (rt : Runtime W)
    login password server (st st' : Sys W) res evs e :
  Bridge.connect rt login password server st = (res, st') ->
  trace st' = trace st ++ evs ->
  In (EvSymbolsGet (Raise e)) evs ->
  res = Ret false /\
  connected (self st') = true /\
  (exists a, In (EvAccountInfo (Ret (Some a))) evs /\
             account_info (self st') = Some (account_asdict a)) /\
  symbols (self st') = symbols (self st).
Proof.
  intros Hrun Htr Hin. unfold Bridge.connect in Hrun. run_monad.
  split_run Hrun; injection Hrun as <- <-; new_events Htr; subst evs;
    pick_event Hin;
    (split; [reflexivity |]); (split; [reflexivity |]);
    (split; [eexists; split; [cbn; eauto 8 | reflexivity] | reflexivity]).
Qed.

Lemma connect_symbol_query_raises_witness :
  let run := Bridge.connect (Fake.terminal Scenario.symbols_fail)
               VNone VNone VNone Fake.fresh in
  fst run = Ret false /\
  connected (self (snd run)) = true /\
  (exists a,
     In (EvAccountInfo (Ret (Some a)))
        [EvInitialize (Ret true); EvAccountInfo (Ret (Some Fake.account));
         EvSymbolsGet (Raise "IPC timeout")] /\
     account_info (self (snd run)) = Some (account_asdict a)) /\
  symbols (self (snd run)) = symbols (self Fake.fresh).
Proof.
  cbv zeta.
  apply (connect_symbol_query_raises (Fake.terminal Scenario.symbols_fail)
           VNone VNone VNone Fake.fresh _ _ _ "IPC timeout").
  - apply surjective_pairing.
  - reflexivity.
  - right. right. left. reflexivity.
Defined.

(** X3. [mt5.login] is called only when login, password and server are
    all true values and the terminal has initialised, and then with
    [int(login)] and the password and server as given. *)
Theorem connect_login_needs_credentials {W} (rt : Runtime W)
    login password server (st st' : Sys W) res evs l p s r :
  Bridge.connect rt login password server st = (res, st') ->
  trace st' = trace st ++ evs ->
  In (EvLogin l p s r) evs ->
  truthy login = true /\ truthy password = true /\ truthy server = true /\
  py_int rt login = Ret l /\ p = password /\ s = server /\
  In (EvInitialize (Ret true)) evs.
Proof.
  intros Hrun Htr Hin. unfold Bridge.connect in Hrun. run_monad.
  split_run Hrun; injection Hrun as <- <-; new_events Htr; subst evs;
    pick_event Hin; injection Hin as <- <- <- <-;
    repeat match goal with
           | H : (_ && _) = true |- _ => apply andb_prop in H as [? ?]
           end;
    repeat match goal with
           | H : negb ?b = _ |- _ =>
               destruct b; cbn [negb] in H; try discriminate H; clear H
           end;
    repeat split; auto; cbn; auto.
Qed.

Lemma connect_login_needs_credentials_witness :
  truthy (VInt 12345) = true /\ truthy (VStr "secret") = true /\
  truthy (VStr "Demo") = true /\
  py_int (Fake.terminal Fake.healthy) (VInt 12345) = Ret 12345 /\
  VStr "secret" = VStr "secret" /\ VStr "Demo" = VStr "Demo" /\
  In (EvInitialize (Ret true))
     [EvInitialize (Ret true);
      EvLogin 12345 (VStr "secret") (VStr "Demo") (Ret true);
      EvAccountInfo (Ret (Some Fake.account));
      EvSymbolsGet (Fake.on_symbols_get Fake.healthy)].
Proof.
  apply (connect_login_needs_credentials (Fake.terminal Fake.healthy)
           (VInt 12345) (VStr "secret") (VStr "Demo") Fake.fresh
           (snd (Bridge.connect (Fake.terminal Fake.healthy)
                   (VInt 12345) (VStr "secret") (VStr "Demo") Fake.fresh))
           (fst (Bridge.connect (Fake.terminal Fake.healthy)
                   (VInt 12345) (VStr "secret") (VStr "Demo") Fake.fresh))
           _ 12345 (VStr "secret") (VStr "Demo") (Ret true)).
  - apply surjective_pairing.
  - reflexivity.
  - right. left. reflexivity.
Defined.

(** ** Frames: what a computation leaves alone *)

Section Frames.
Context {W : Type} (P : MT5Bridge -> MT5Bridge -> Prop) (Q : event -> Prop).
Hypothesis P_refl : forall s, P s s.
Hypothesis P_trans : forall a b c, P a b -> P b c -> P a c.

Lemma preserves_ret {A} (a : A) : preserves P Q (@ret W A a).
Proof. intros st. exists []. cbn. rewrite app_nil_r. auto. Qed.

Lemma preserves_pure_call {A} (r : outcome A) : preserves P Q (@pure_call W A r).
Proof. intros st. exists []. cbn. rewrite app_nil_r. auto. Qed.

Lemma preserves_get_self : preserves P Q (@get_self W).
Proof. intros st. exists []. cbn. rewrite app_nil_r. auto. Qed.

Lemma preserves_update_self f :
  (forall s, P s (f s)) -> preserves P Q (@update_self W f).
Proof. intros Hf st. exists []. cbn. rewrite app_nil_r. auto. Qed.

Lemma preserves_effect e : Q e -> preserves P Q (@effect W e).
Proof. intros He st. exists [e]. cbn. auto. Qed.

Lemma preserves_call {R} (f : W -> outcome R * W) ev :
  (forall r, Q (ev r)) -> preserves P Q (call f ev).
Proof.
  intros Hev st. unfold call. destruct (f (world st)) as [r w].
  exists [ev r]. cbn. auto.
Qed.

Lemma preserves_bind {A B} (m : M W A) (k : A -> M W B) :
  preserves P Q m -> (forall a, preserves P Q (k a)) ->
  preserves P Q (bind m k).
Proof.
  intros Hm Hk st. destruct (Hm st) as (evs1 & Htr1 & HQ1 & HP1).
  unfold bind. destruct (m st) as [[a | e] st1]; cbn in *.
  - destruct (Hk a st1) as (evs2 & Htr2 & HQ2 & HP2).
    exists (evs1 ++ evs2). rewrite Htr2, Htr1, app_assoc.
    repeat split; eauto using Forall_app_2.
  - exists evs1. auto.
Qed.

Lemma preserves_try_catch {A} (m : M W A) (h : string -> M W A) :
  preserves P Q m -> (forall e, preserves P Q (h e)) ->
  preserves P Q (try_catch m h).
Proof.
  intros Hm Hh st. destruct (Hm st) as (evs1 & Htr1 & HQ1 & HP1).
  unfold try_catch. destruct (m st) as [[a | e] st1]; cbn in *.
  - exists evs1. auto.
  - destruct (Hh e st1) as (evs2 & Htr2 & HQ2 & HP2).
    exists (evs1 ++ evs2). rewrite Htr2, Htr1, app_assoc.
    repeat split; eauto using Forall_app_2.
Qed.

Lemma preserves_for_each {A} (l : list A) (body : A -> M W unit) :
  (forall x, In x l -> preserves P Q (body x)) ->
  preserves P Q (for_each l body).
Proof.
  induction l as [| x l IH]; intros Hbody; cbn [for_each].
  - apply preserves_ret.
  - apply preserves_bind; [apply Hbody; now left |].
    intros _. apply IH. intros y Hy. apply Hbody. now right.
Qed.

Lemma preserves_now (rt : Runtime W) : preserves P Q (Bridge.now rt).
Proof.
  intros st. unfold Bridge.now. destruct (time_time rt (world st)) as [t w].
  exists []. cbn. rewrite app_nil_r. auto.
Qed.

End Frames.

(** Decomposes a computation along its binds, handlers and case
    distinctions; [r] and [t] prove that the relation on bridges is
    reflexive and transitive. *)
Ltac frame r t :=
  repeat first
    [ apply (preserves_ret _ _ r)
    | apply (preserves_pure_call _ _ r)
    | apply (preserves_get_self _ _ r)
    | apply (preserves_now _ _ r)
    | apply (preserves_bind _ _ t); [| intros ?]
    | apply (preserves_try_catch _ _ t); [| intros ?]
    | apply preserves_call; intros ?
    | apply preserves_update_self; intros ?
    | apply preserves_effect
    | apply (preserves_for_each _ _ r t); intros ? ?
    | match goal with
      | |- preserves _ _ (match ?x with _ => _ end) => destruct x
      end
    | progress cbv zeta ].

(** ** Trade operations *)

(** X4. The trade methods and the market query work on the terminal
    only: whatever they answer, the bridge object is exactly as before;
    in particular a trade does not refresh the cached positions, and a
    market query does not enter the tick map. *)
Theorem trades_and_quotes_keep_bridge {W} (rt : Runtime W) (st : Sys W) :
  (forall symbol order_type volume price sl tp comment,
      self (snd (Bridge.place_order rt symbol order_type volume price sl tp
                   comment st)) = self st) /\
  (forall ticket, self (snd (Bridge.close_position rt ticket st)) = self st) /\
  (forall symbol, self (snd (Bridge.get_market_data rt symbol st)) = self st).
Proof.
  assert (Hr : forall s : MT5Bridge, s = s) by reflexivity.
  assert (Ht : forall a b c : MT5Bridge, a = b -> b = c -> a = c)
    by (intros; congruence).
  repeat split; intros.
  - enough (H : preserves (fun s s' => s = s') (fun _ => True)
                  (Bridge.place_order rt symbol order_type volume price sl tp
                     comment))
      by (destruct (H st) as (_ & _ & _ & E); now rewrite <- E).
    unfold Bridge.place_order, Bridge.error_dict. frame Hr Ht; auto.
  - enough (H : preserves (fun s s' => s = s') (fun _ => True)
                  (Bridge.close_position rt ticket))
      by (destruct (H st) as (_ & _ & _ & E); now rewrite <- E).
    unfold Bridge.close_position, Bridge.error_dict. frame Hr Ht; auto.
  - enough (H : preserves (fun s s' => s = s') (fun _ => True)
                  (Bridge.get_market_data rt symbol))
      by (destruct (H st) as (_ & _ & _ & E); now rewrite <- E).
    unfold Bridge.get_market_data. frame Hr Ht; auto.
Qed.

(** X5. An explicit price, zero included, is submitted as given and no
    tick is queried for it. *)
Theorem place_order_explicit_price {W} (rt : Runtime W) (st st' : Sys W)
    symbol order_type volume price sl tp comment res evs :
  price <> VNone ->
  Bridge.place_order rt symbol order_type volume price sl tp comment st
    = (res, st') ->
  trace st' = trace st ++ evs ->
  (forall s r, ~ In (EvSymbolInfoTick s r) evs) /\
  (forall request answer,
      In (EvOrderSend request answer) evs ->
      request !! "price" = Some price /\
      request
      = Bridge.order_request symbol order_type volume price sl tp comment).
Proof.
  intros Hprice Hrun Htr. unfold Bridge.place_order in Hrun. run_monad.
  split_run Hrun; try contradiction; injection Hrun as <- <-;
    new_events Htr; subst evs;
    (split; [intros ? ? Hin; pick_event Hin
            | intros ? ? Hin; pick_event Hin;
              injection Hin as <- <-; split; reflexivity]).
Qed.

Lemma place_order_explicit_price_witness :
  let run :=
    Bridge.place_order (Fake.terminal Fake.healthy) "EURUSD" ORDER_TYPE_SELL
      (VFloat 0.01%float) (VFloat 0%float) VNone VNone (VStr "WingZero")
      Fake.online in
  (forall s r, ~ In (EvSymbolInfoTick s r) (trace (snd run))) /\
  (forall request answer,
      In (EvOrderSend request answer) (trace (snd run)) ->
      request !! "price" = Some (VFloat 0%float) /\
      request
      = Bridge.order_request "EURUSD" ORDER_TYPE_SELL (VFloat 0.01%float)
          (VFloat 0%float) VNone VNone (VStr "WingZero")).
Proof.
  cbv zeta.
  apply (place_order_explicit_price (Fake.terminal Fake.healthy) Fake.online
           (snd (Bridge.place_order (Fake.terminal Fake.healthy) "EURUSD"
                   ORDER_TYPE_SELL (VFloat 0.01%float) (VFloat 0%float) VNone
                   VNone (VStr "WingZero") Fake.online))
           "EURUSD" ORDER_TYPE_SELL (VFloat 0.01%float) (VFloat 0%float)
           VNone VNone (VStr "WingZero")
           (fst (Bridge.place_order (Fake.terminal Fake.healthy) "EURUSD"
                   ORDER_TYPE_SELL (VFloat 0.01%float) (VFloat 0%float) VNone
                   VNone (VStr "WingZero") Fake.online))).
  - discriminate.
  - apply surjective_pairing.
  - reflexivity.
Defined.

(** X6. The failures of [place_order] before submission, each with its
    message: an unknown symbol, a symbol without a quote, and a lookup
    that raises.  In each case the terminal sees only the lookups and the
    bridge is unchanged. *)
Theorem place_order_lookup_failures {W} (rt : Runtime W) (st : Sys W)
    symbol order_type volume sl tp comment :
  connected (self st) = true ->
  (forall price w,
      mt5_symbol_info rt symbol (world st) = (Ret None, w) ->
      Bridge.place_order rt symbol order_type volume price sl tp comment st
      = (Ret (Bridge.error_dict ("Symbol " +:+ symbol +:+ " not found")),
         Build_Sys (self st) w
           (trace st ++ [EvSymbolInfo symbol (Ret None)]))) /\
  (forall price e w,
      mt5_symbol_info rt symbol (world st) = (Raise e, w) ->
      Bridge.place_order rt symbol order_type volume price sl tp comment st
      = (Ret (Bridge.error_dict e),
         Build_Sys (self st) w
           (trace st ++ [EvSymbolInfo symbol (Raise e)]))) /\
  (forall info w1 w2,
      mt5_symbol_info rt symbol (world st) = (Ret (Some info), w1) ->
      mt5_symbol_info_tick rt symbol w1 = (Ret None, w2) ->
      Bridge.place_order rt symbol order_type volume VNone sl tp comment st
      = (Ret (Bridge.error_dict ("Failed to get price for " +:+ symbol)),
         Build_Sys (self st) w2
           (trace st ++ [EvSymbolInfo symbol (Ret (Some info));
                         EvSymbolInfoTick symbol (Ret None)]))).
Proof.
  intros Hon.
  repeat split; intros; unfold Bridge.place_order; run_monad;
    rewrite Hon; cbn [negb];
    repeat match goal with
           | H : _ = (_, _) |- _ => rewrite H; clear H; cbn
           end;
    rewrite <- ?app_assoc; reflexivity.
Qed.

Lemma place_order_lookup_failures_witness :
  Bridge.place_order (Fake.terminal Scenario.no_tick) "EURUSD" ORDER_TYPE_BUY
    (VFloat 0.01%float) VNone VNone VNone (VStr "WingZero") Fake.online
  = (Ret (Bridge.error_dict "Failed to get price for EURUSD"),
     Build_Sys (self Fake.online) 2%nat
       (trace Fake.online
        ++ [EvSymbolInfo "EURUSD" (Ret (Some {| sym_name := "EURUSD" |}));
            EvSymbolInfoTick "EURUSD" (Ret None)])).
Proof.
  refine (proj2 (proj2 (place_order_lookup_failures
                          (Fake.terminal Scenario.no_tick) Fake.online
                          "EURUSD" ORDER_TYPE_BUY (VFloat 0.01%float) VNone
                          VNone (VStr "WingZero") _))
            {| sym_name := "EURUSD" |} 1%nat 2%nat _ _); reflexivity.
Defined.

(** X7. The failures of [close_position] before submission: a ticket the
    terminal does not list (null or empty answer) gives "Position T not
    found" after the lookup alone, and a position without a quote gives
    "Failed to get price for" its symbol; no deal is submitted. *)
Theorem close_position_lookup_failures {W} (rt : Runtime W) (st : Sys W)
    ticket :
  connected (self st) = true ->
  (forall answer w,
      mt5_positions_get rt (Some ticket) (world st) = (Ret answer, w) ->
      answer = None \/ answer = Some [] ->
      Bridge.close_position rt ticket st
      = (Ret (Bridge.error_dict
                ("Position " +:+ str_int ticket +:+ " not found")),
         Build_Sys (self st) w
           (trace st ++ [EvPositionsGet (Some ticket) (Ret answer)]))) /\
  (forall p others w1 w2,
      mt5_positions_get rt (Some ticket) (world st)
        = (Ret (Some (p :: others)), w1) ->
      mt5_symbol_info_tick rt (pos_symbol p) w1 = (Ret None, w2) ->
      Bridge.close_position rt ticket st
      = (Ret (Bridge.error_dict
                ("Failed to get price for " +:+ pos_symbol p)),
         Build_Sys (self st) w2
           (trace st ++ [EvPositionsGet (Some ticket) (Ret (Some (p :: others)));
                         EvSymbolInfoTick (pos_symbol p) (Ret None)]))).
Proof.
  intros Hon. split.
  - intros answer w Hget Hempty. unfold Bridge.close_position. run_monad.
    rewrite Hon. cbn [negb]. rewrite Hget.
    destruct Hempty as [-> | ->]; reflexivity.
  - intros p others w1 w2 Hget Htick. unfold Bridge.close_position. run_monad.
    rewrite Hon. cbn [negb]. rewrite Hget. cbn. rewrite Htick. cbn.
    now rewrite <- app_assoc.
Qed.

Lemma close_position_lookup_failures_witness :
  Bridge.close_position (Fake.terminal Fake.healthy) 999 Fake.online
  = (Ret (Bridge.error_dict "Position 999 not found"),
     Build_Sys (self Fake.online) 1%nat
       (trace Fake.online ++ [EvPositionsGet (Some 999) (Ret (Some []))])).
Proof.
  refine (proj1 (close_position_lookup_failures (Fake.terminal Fake.healthy)
                   Fake.online 999 _) (Some []) 1%nat _ _).
  - reflexivity.
  - reflexivity.
  - right. reflexivity.
Defined.

(** X8. A closing deal closes the whole position on its own symbol: the
    request carries the symbol and the full volume of the first position
    the terminal lists for the ticket, the comment "WingZero Close" and no
    stop-loss or take-profit; it is the only deal of the call. *)
Theorem close_position_closes_whole_position {W} (rt : Runtime W)
    (st st' : Sys W) ticket res evs request answer :
  Bridge.close_position rt ticket st = (res, st') ->
  trace st' = trace st ++ evs ->
  In (EvOrderSend request answer) evs ->
  count_events is_order_send evs = 1%nat /\
  exists p others,
    In (EvPositionsGet (Some ticket) (Ret (Some (p :: others)))) evs /\
    request !! "symbol" = Some (VStr (pos_symbol p)) /\
    request !! "volume" = Some (VFloat (pos_volume p)) /\
    request !! "comment" = Some (VStr "WingZero Close") /\
    request !! "sl" = None /\
    request !! "tp" = None.
Proof.
  intros Hrun Htr Hin. unfold Bridge.close_position in Hrun. run_monad.
  split_run Hrun; injection Hrun as <- <-; new_events Htr; subst evs;
    pick_event Hin; injection Hin as <- <-;
    (split; [reflexivity |]); eexists _, _;
    (split; [left; reflexivity |]); repeat split.
Qed.

Lemma close_position_closes_whole_position_witness :
  count_events is_order_send (trace (snd (Fake.close_long Fake.online)))
    = 1%nat /\
  exists p others,
    In (EvPositionsGet (Some 555) (Ret (Some (p :: others))))
       (trace (snd (Fake.close_long Fake.online))) /\
    Fake.close_long_request !! "symbol" = Some (VStr (pos_symbol p)) /\
    Fake.close_long_request !! "volume" = Some (VFloat (pos_volume p)) /\
    Fake.close_long_request !! "comment" = Some (VStr "WingZero Close") /\
    Fake.close_long_request !! "sl" = None /\
    Fake.close_long_request !! "tp" = None.
Proof.
  apply (close_position_closes_whole_position (Fake.terminal Fake.healthy)
           Fake.online (snd (Fake.close_long Fake.online)) 555
           (fst (Fake.close_long Fake.online)) _ _ (Ret (Some Fake.executed))).
  - apply surjective_pairing.
  - reflexivity.
  - right. right. left. reflexivity.
Defined.

(** X9. Neither trade method retries: one call submits at most one deal,
    whatever the terminal answers. *)
Theorem trades_submit_at_most_once {W} (rt : Runtime W) (st : Sys W) :
  (forall symbol order_type volume price sl tp comment,
      exists evs,
        trace (snd (Bridge.place_order rt symbol order_type volume price sl
                      tp comment st)) = trace st ++ evs /\
        (count_events is_order_send evs <= 1)%nat) /\
  (forall ticket,
      exists evs,
        trace (snd (Bridge.close_position rt ticket st)) = trace st ++ evs /\
        (count_events is_order_send evs <= 1)%nat).
Proof.
  split; intros.
  - destruct (Bridge.place_order rt symbol order_type volume price sl tp
                comment st) as [res st'] eqn:Hrun.
    unfold Bridge.place_order in Hrun. run_monad.
    split_run Hrun; injection Hrun as <- <-; cbn [snd trace];
      eexists;
      (split; [ first [ repeat rewrite <- app_assoc; reflexivity
                      | symmetry; apply app_nil_r ]
              | cbn; lia ]).
  - destruct (Bridge.close_position rt ticket st) as [res st'] eqn:Hrun.
    unfold Bridge.close_position in Hrun. run_monad.
    split_run Hrun; injection Hrun as <- <-; cbn [snd trace];
      eexists;
      (split; [ first [ repeat rewrite <- app_assoc; reflexivity
                      | symmetry; apply app_nil_r ]
              | cbn; lia ]).
Qed.

(** ** The trade handlers *)

(** X10. The order handler maps the requested type to a side by one
    test: the lower-cased text ["buy"] gives a buy, and every other text,
    a misspelt one included, gives a sell. *)
Theorem place_order_route_side {W} (rt : Runtime W) (st st' : Sys W)
    symbol order_type volume price sl tp comment res evs request answer :
  Api.place_order rt symbol order_type volume price sl tp comment st
    = (res, st') ->
  trace st' = trace st ++ evs ->
  In (EvOrderSend request answer) evs ->
  (py_lower rt order_type = "buy" ->
     request !! "type" = Some (VInt ORDER_TYPE_BUY)) /\
  (py_lower rt order_type <> "buy" ->
     request !! "type" = Some (VInt ORDER_TYPE_SELL)).
Proof.
  intros Hrun Htr Hin.
  unfold Api.place_order, Bridge.place_order in Hrun. run_monad.
  destruct (String.eqb_spec (py_lower rt order_type) "buy") as [Hbuy | Hsell];
    split_run Hrun; injection Hrun as <- <-; new_events Htr; subst evs;
    pick_event Hin; injection Hin as <- <-;
    (split; [intros Hb | intros Hs]); first [reflexivity | contradiction].
Qed.

Lemma place_order_route_side_witness :
  let run :=
    Api.place_order (Fake.terminal Fake.healthy) "EURUSD" "hold"
      (VFloat 0.01%float) VNone VNone VNone (VStr "WingZero") Fake.online in
  let request :=
    Bridge.order_request "EURUSD" ORDER_TYPE_SELL (VFloat 0.01%float)
      (VFloat (tick_bid Fake.quote)) VNone VNone (VStr "WingZero") in
  (py_lower (Fake.terminal Fake.healthy) "hold" = "buy" ->
     request !! "type" = Some (VInt ORDER_TYPE_BUY)) /\
  (py_lower (Fake.terminal Fake.healthy) "hold" <> "buy" ->
     request !! "type" = Some (VInt ORDER_TYPE_SELL)).
Proof.
  cbv zeta.
  apply (place_order_route_side (Fake.terminal Fake.healthy) Fake.online
           (snd (Api.place_order (Fake.terminal Fake.healthy) "EURUSD" "hold"
                   (VFloat 0.01%float) VNone VNone VNone (VStr "WingZero")
                   Fake.online))
           "EURUSD" "hold" (VFloat 0.01%float) VNone VNone VNone
           (VStr "WingZero")
           (fst (Api.place_order (Fake.terminal Fake.healthy) "EURUSD" "hold"
                   (VFloat 0.01%float) VNone VNone VNone (VStr "WingZero")
                   Fake.online))
           (trace (snd (Api.place_order (Fake.terminal Fake.healthy) "EURUSD"
                          "hold" (VFloat 0.01%float) VNone VNone VNone
                          (VStr "WingZero") Fake.online)))
           (Bridge.order_request "EURUSD" ORDER_TYPE_SELL (VFloat 0.01%float)
              (VFloat (tick_bid Fake.quote)) VNone VNone (VStr "WingZero"))
           (Ret (Some Fake.executed))).
  - apply surjective_pairing.
  - reflexivity.
  - right. right. left. reflexivity.
Defined.




(** ** Computations that cannot raise *)

Section Returns.
Context {W : Type}.

Lemma never_raises_ret {A} (a : A) : never_raises (@ret W A a).
Proof. intros st. now exists a. Qed.

Lemma never_raises_get_self : never_raises (@get_self W).
Proof. intros st. now eexists. Qed.

Lemma never_raises_update_self f : never_raises (@update_self W f).
Proof. intros st. now eexists. Qed.

Lemma never_raises_effect e : never_raises (@effect W e).
Proof. intros st. now eexists. Qed.

Lemma never_raises_now (rt : Runtime W) : never_raises (Bridge.now rt).
Proof.
  intros st. unfold Bridge.now. destruct (time_time rt (world st)).
  now eexists.
Qed.

Lemma never_raises_bind {A B} (m : M W A) (k : A -> M W B) :
  never_raises m -> (forall a, never_raises (k a)) -> never_raises (bind m k).
Proof.
  intros Hm Hk st. destruct (Hm st) as [a Ha]. unfold bind.
  destruct (m st) as [r st1]. cbn in Ha. subst r. apply Hk.
Qed.

(** A handler that returns makes the whole [try] return, whatever its
    body does. *)
Lemma never_raises_try_catch {A} (m : M W A) (h : string -> M W A) :
  (forall e, never_raises (h e)) -> never_raises (try_catch m h).
Proof.
  intros Hh st. unfold try_catch. destruct (m st) as [[a | e] st1].
  - now exists a.
  - apply Hh.
Qed.

Lemma never_raises_for_each {A} (l : list A) (body : A -> M W unit) :
  (forall x, never_raises (body x)) -> never_raises (for_each l body).
Proof.
  intros Hbody. induction l as [| x l IH]; cbn [for_each].
  - apply never_raises_ret.
  - apply never_raises_bind; auto.
Qed.

End Returns.

Ltac returns :=
  repeat first
    [ apply never_raises_ret
    | apply never_raises_get_self
    | apply never_raises_update_self
    | apply never_raises_effect
    | apply never_raises_now
    | apply never_raises_try_catch; intros ?
    | apply never_raises_for_each; intros ?
    | apply never_raises_bind; [| intros ?]
    | match goal with
      | |- never_raises (match ?x with _ => _ end) => destruct x
      end ].

(** ** The worker loop *)

(** The part of an iteration before its pause. *)
Lemma stream_work_frame {W} (rt : Runtime W) (st : Sys W) :
  exists st' evs,
    (for_each Bridge.major_pairs (Bridge.stream_symbol rt) ;;
     t <- Bridge.now rt ;;
     if Z.eqb (t mod 5) 0
     then ps <- Bridge.get_positions rt ;;
          account <- Bridge.get_account_info rt ;;
          Bridge.emit "positions_update" (JDicts ps) ;;
          Bridge.emit "account_update" (Bridge.json_of_account account)
     else ret tt) st = (Ret tt, st') /\
    trace st' = trace st ++ evs /\
    Forall (fun e => is_sleep e = false /\ is_thread_event e = false) evs /\
    running (self st') = running (self st) /\
    connected (self st') = connected (self st) /\
    data_thread (self st') = data_thread (self st).
Proof.
  set (work := bind _ _).
  assert (Hret : never_raises work).
  { unfold work, Bridge.stream_symbol, Bridge.get_market_data,
      Bridge.get_positions, Bridge.get_account_info, Bridge.emit.
    returns. }
  assert (Hframe : preserves
            (fun s s' => running s' = running s /\
                         connected s' = connected s /\
                         data_thread s' = data_thread s)
            (fun e => is_sleep e = false /\ is_thread_event e = false) work).
  { assert (Hr : forall s : MT5Bridge,
               running s = running s /\ connected s = connected s /\
               data_thread s = data_thread s) by auto.
    assert (Ht : forall a b c : MT5Bridge,
               running b = running a /\ connected b = connected a /\
               data_thread b = data_thread a ->
               running c = running b /\ connected c = connected b /\
               data_thread c = data_thread b ->
               running c = running a /\ connected c = connected a /\
               data_thread c = data_thread a)
      by (intros a b c (-> & -> & ->) (-> & -> & ->); auto).
    unfold work, Bridge.stream_symbol, Bridge.get_market_data,
      Bridge.get_positions, Bridge.get_account_info, Bridge.emit.
    apply (preserves_bind _ _ Ht);
      [apply (preserves_for_each _ _ Hr Ht); intros ? _ | intros ?];
      frame Hr Ht; auto. }
  destruct (Hret st) as [[] Hres]. destruct (Hframe st) as (evs & Htr & HQ & HP).
  destruct (work st) as [r st']. cbn in *. subst r.
  exists st', evs. intuition.
Qed.

(** One iteration, whatever the terminal does. *)
Lemma stream_iteration_run {W} (rt : Runtime W) (st : Sys W) :
  exists st' evs,
    Bridge.stream_iteration rt st = (Ret tt, st') /\
    trace st' = trace st ++ evs ++ [EvSleep 1] /\
    Forall (fun e => is_sleep e = false /\ is_thread_event e = false) evs /\
    running (self st') = running (self st) /\
    connected (self st') = connected (self st) /\
    data_thread (self st') = data_thread (self st).
Proof.
  destruct (stream_work_frame rt st) as (st1 & evs & Hrun & Htr & HQ & HP).
  unfold Bridge.stream_iteration, try_catch. unfold bind in *.
  destruct (for_each Bridge.major_pairs (Bridge.stream_symbol rt) st)
    as [[[] | e] st0]; [| discriminate Hrun].
  destruct (Bridge.now rt st0) as [[t | e] st0']; [| discriminate Hrun].
  rewrite Hrun.
  exists (Build_Sys (self st1) (world st1) (trace st1 ++ [EvSleep 1])), evs.
  unfold Bridge.sleep, effect. cbn. rewrite Htr, <- app_assoc. intuition.
Qed.

(** X12. Whatever the terminal answers or raises during an iteration of
    the worker loop, the iteration ends with the regular one-second pause:
    the five-second back-off of the outer handler is never taken, because
    every terminal call of the body is guarded by the accessor that makes
    it.  The iteration changes neither the run flag nor the status. *)
Theorem stream_iteration_regular_pause {W} (rt : Runtime W) (st : Sys W) :
  exists st' evs,
    Bridge.stream_iteration rt st = (Ret tt, st') /\
    trace st' = trace st ++ evs ++ [EvSleep 1] /\
    Forall (fun e => is_sleep e = false /\ is_thread_event e = false) evs /\
    running (self st') = running (self st) /\
    connected (self st') = connected (self st) /\
    data_thread (self st') = data_thread (self st).
Proof.
  destruct (stream_work_frame rt st) as (st1 & evs & Hrun & Htr & HQ & HP).
  unfold Bridge.stream_iteration, try_catch. unfold bind in *.
  destruct (for_each Bridge.major_pairs (Bridge.stream_symbol rt) st)
    as [[[] | e] st0]; [| discriminate Hrun].
  destruct (Bridge.now rt st0) as [[t | e] st0']; [| discriminate Hrun].
  rewrite Hrun.
  exists (Build_Sys (self st1) (world st1) (trace st1 ++ [EvSleep 1])), evs.
  unfold Bridge.sleep, effect. cbn. rewrite Htr, <- app_assoc. intuition.
Qed.

Lemma count_events_none kind (evs : list event) :
  Forall (fun e => kind e = false) evs -> count_events kind evs = 0%nat.
Proof.
  unfold count_events. induction 1 as [| e l He _ IH]; cbn.
  - reflexivity.
  - now rewrite He.
Qed.

(** X13. The worker never leaves its loop by itself: while the bridge is
    running and connected, every turn of the loop is taken and ends with
    its pause, and the run flag and the status are still set after any
    number of turns.  Only something outside the loop ends it. *)
Theorem worker_runs_while_connected {W} (rt : Runtime W) (n : nat)
    (st : Sys W) :
  running (self st) = true ->
  connected (self st) = true ->
  exists st' evs,
    Bridge._data_stream_worker rt n st = (Ret false, st') /\
    trace st' = trace st ++ evs /\
    count_events is_sleep evs = n /\
    running (self st') = true /\
    connected (self st') = true.
Proof.
  revert st. induction n as [| n IH]; intros st Hrunning Hon.
  - exists st, []. cbn. rewrite app_nil_r. auto.
  - destruct (stream_iteration_run rt st)
      as (st1 & evs1 & Hrun1 & Htr1 & HQ1 & Hr1 & Hc1 & _).
    rewrite Hrunning in Hr1. rewrite Hon in Hc1.
    destruct (IH st1 Hr1 Hc1) as (st2 & evs2 & Hrun2 & Htr2 & Hn2 & Hr2 & Hc2).
    exists st2, (evs1 ++ [EvSleep 1] ++ evs2).
    cbn [Bridge._data_stream_worker]. unfold bind at 1, get_self.
    rewrite Hrunning, Hon. cbn [andb]. unfold bind at 1. rewrite Hrun1.
    repeat split; auto.
    + now rewrite Htr2, Htr1, <- !app_assoc.
    + rewrite !count_events_app, Hn2, count_events_none.
      * reflexivity.
      * eapply Forall_impl; [exact HQ1 |]. now intros e [He _].
Qed.

Lemma worker_runs_while_connected_witness :
  exists st' evs,
    Bridge._data_stream_worker (Fake.terminal Fake.patchy) 3 Fake.online
      = (Ret false, st') /\
    trace st' = trace Fake.online ++ evs /\
    count_events is_sleep evs = 3%nat /\
    running (self st') = true /\
    connected (self st') = true.
Proof.
  apply (worker_runs_while_connected (Fake.terminal Fake.patchy) 3 Fake.online);
    reflexivity.
Defined.

(** X14. After [disconnect], whether [mt5.shutdown()] returned or raised,
    the run flag is cleared, so the worker finds its loop condition false
    at its next test and leaves without another terminal call. *)
Theorem worker_stops_after_disconnect {W} (rt : Runtime W) (st : Sys W)
    (n : nat) :
  running (self (snd (Bridge.disconnect rt st))) = false /\
  Bridge._data_stream_worker rt (S n) (snd (Bridge.disconnect rt st))
  = (Ret true, snd (Bridge.disconnect rt st)).
Proof.
  assert (Hoff : running (self (snd (Bridge.disconnect rt st))) = false).
  { unfold Bridge.disconnect. run_monad. cbn [set_running data_thread].
    destruct (data_thread (self st)); cbn;
      destruct (mt5_shutdown rt (world st)) as [[[] | e] w]; reflexivity. }
  split; [exact Hoff |].
  cbn [Bridge._data_stream_worker]. unfold bind, get_self, ret.
  now rewrite Hoff.
Qed.


(** X15. The periodic refresh.  When the clock read after the tick loop
    is a multiple of five seconds, the iteration queries positions and
    account once each and then emits [positions_update] and
    [account_update], in this order and also when a query failed: the
    payloads are then the empty list and null.  At any other second it
    emits neither and queries nothing. *)
Theorem stream_iteration_refresh {W} (rt : Runtime W) (st mid : Sys W)
    clock w :
  connected (self st) = true ->
  for_each Bridge.major_pairs (Bridge.stream_symbol rt) st = (Ret tt, mid) ->
  time_time rt (world mid) = (clock, w) ->
  exists st',
    Bridge.stream_iteration rt st = (Ret tt, st') /\
    if Z.eqb (clock mod 5) 0
    then exists found info,
      trace st'
      = trace mid ++
        [EvPositionsGet None found;
         EvAccountInfo info;
         EvEmit "positions_update"
           (JDicts match found with
                   | Ret (Some (p :: l)) => map position_asdict (p :: l)
                   | _ => []
                   end);
         EvEmit "account_update"
           match info with
           | Ret (Some a) => JDict (account_asdict a)
           | _ => JNone
           end;
         EvSleep 1]
    else trace st' = trace mid ++ [EvSleep 1].
Proof.
  intros Hon Hloop Hclock.
  destruct (for_each_stream_run rt Bridge.major_pairs st Hon)
    as (mid' & evs0 & Hloop' & Hon' & _).
  rewrite Hloop in Hloop'. injection Hloop' as <-.
  unfold Bridge.stream_iteration, try_catch. unfold bind at 1. rewrite Hloop.
  unfold bind at 1. unfold Bridge.now at 1. rewrite Hclock.
  unfold bind at 1.
  destruct (Z.eqb (clock mod 5) 0).
  - set (st0 := Build_Sys (self mid) w (trace mid)).
    destruct (mt5_positions_get rt None (world st0)) as [found w1] eqn:Hfound.
    destruct (Bridge.get_positions rt st0) as [ps st1] eqn:Hps.
    destruct (get_positions_run rt st0 st1 found w1 ps Hon' Hfound Hps)
      as (Htr1 & Hcase1).
    assert (Hon1 : connected (self st1) = true).
    { clear - Hps Hon'. unfold Bridge.get_positions in Hps. run_monad.
      subst st0. cbn [self] in Hps. rewrite Hon' in Hps.
      split_run Hps; injection Hps as <- <-; assumption. }
    destruct (mt5_account_info rt (world st1)) as [info w2] eqn:Hinfo.
    destruct (Bridge.get_account_info rt st1) as [acc st2] eqn:Hacc.
    destruct (get_account_info_run rt st1 st2 info w2 acc Hon1 Hinfo Hacc)
      as (Htr2 & Hcase2).
    assert (Hps' : ps = Ret match found with
                            | Ret (Some (p :: l)) => map position_asdict (p :: l)
                            | _ => []
                            end)
      by (destruct found as [[[| p l] |] | e]; tauto).
    assert (Hacc' : exists d, acc = Ret d /\
                    Bridge.json_of_account d
                    = match info with
                      | Ret (Some a) => JDict (account_asdict a)
                      | _ => JNone
                      end)
      by (destruct info as [[a |] | e]; destruct Hcase2 as [-> _]; eauto).
    destruct Hacc' as (d & -> & Hd). subst ps.
    unfold bind at 1. rewrite Hps. unfold bind at 1. rewrite Hacc.
    unfold Bridge.emit, Bridge.sleep. run_monad.
    eexists. split; [reflexivity |].
    exists found, info. cbn [trace]. rewrite Htr2, Htr1, Hd.
    subst st0. cbn [trace]. now rewrite <- !app_assoc.
  - unfold Bridge.sleep. run_monad. eexists. split; reflexivity.
Qed.

Lemma stream_iteration_refresh_witness :
  exists st',
    Bridge.stream_iteration (Fake.terminal Fake.flat) Fake.online
      = (Ret tt, st') /\
    if Z.eqb (1700000000 mod 5) 0
    then exists found info,
      trace st'
      = trace (snd (for_each Bridge.major_pairs
                      (Bridge.stream_symbol (Fake.terminal Fake.flat))
                      Fake.online)) ++
        [EvPositionsGet None found;
         EvAccountInfo info;
         EvEmit "positions_update"
           (JDicts match found with
                   | Ret (Some (p :: l)) => map position_asdict (p :: l)
                   | _ => []
                   end);
         EvEmit "account_update"
           match info with
           | Ret (Some a) => JDict (account_asdict a)
           | _ => JNone
           end;
         EvSleep 1]
    else trace st'
         = trace (snd (for_each Bridge.major_pairs
                         (Bridge.stream_symbol (Fake.terminal Fake.flat))
                         Fake.online)) ++ [EvSleep 1].
Proof.
  apply (stream_iteration_refresh (Fake.terminal Fake.flat) Fake.online
           (snd (for_each Bridge.major_pairs
                   (Bridge.stream_symbol (Fake.terminal Fake.flat))
                   Fake.online))
           1700000000 7%nat).
  - reflexivity.
  - vm_compute. reflexivity.
  - vm_compute. reflexivity.
Defined.

(** X16. A disconnect whose [mt5.shutdown()] returns: the worker is
    joined exactly when a thread object exists, the terminal is shut down
    once, the status and the run flag end cleared, and every cached
    snapshot (account, symbols, positions, orders, ticks) stays in the
    bridge, so that the status page still shows the last account. *)
Theorem disconnect_tears_down {W} (rt : Runtime W) (st : Sys W) w :
  mt5_shutdown rt (world st) = (Ret tt, w) ->
  exists st',
    Bridge.disconnect rt st = (Ret tt, st') /\
    self st' = set_connected false (set_running false (self st)) /\
    world st' = w /\
    trace st'
    = trace st ++ (if data_thread (self st) then [EvThreadJoin] else [])
               ++ [EvShutdown (Ret tt)].
Proof.
  intros Hdown. unfold Bridge.disconnect. run_monad.
  cbn [set_running data_thread].
  destruct (data_thread (self st)); cbn; rewrite Hdown; eexists;
    repeat split; cbn; now rewrite <- ?app_assoc.
Qed.

Lemma disconnect_tears_down_witness :
  exists st',
    Bridge.disconnect (Fake.terminal Fake.healthy) Scenario.streaming
      = (Ret tt, st') /\
    self st'
    = set_connected false (set_running false (self Scenario.streaming)) /\
    world st' = 1%nat /\
    trace st'
    = trace Scenario.streaming
      ++ (if data_thread (self Scenario.streaming) then [EvThreadJoin] else [])
      ++ [EvShutdown (Ret tt)].
Proof.
  apply (disconnect_tears_down (Fake.terminal Fake.healthy) Scenario.streaming).
  reflexivity.
Defined.

(** ** Ticks that stay, and ticks replayed to a subscriber *)

Lemma earlier_pairs_differ before symbol after :
  Bridge.major_pairs = before ++ symbol :: after -> ~ In symbol before.
Proof.
  intros Hsplit Hin. pose proof major_pairs_distinct as Hnd.
  rewrite Hsplit in Hnd. apply NoDup_app in Hnd as (_ & Hsep & _).
  apply (Hsep symbol).
  - now apply list_elem_of_In.
  - now left.
Qed.

(** What follows the tick loop in an iteration leaves the tick map
    alone. *)
Lemma iteration_after_loop {W} (rt : Runtime W) (st st2 : Sys W) :
  for_each Bridge.major_pairs (Bridge.stream_symbol rt) st = (Ret tt, st2) ->
  exists st',
    Bridge.stream_iteration rt st = (Ret tt, st') /\
    market_data (self st') = market_data (self st2).
Proof.
  intros Hloop. unfold Bridge.stream_iteration, try_catch.
  unfold bind at 1. rewrite Hloop.
  unfold bind at 1. unfold Bridge.now at 1.
  destruct (time_time rt (world st2)) as [clock w2].
  set (st3 := Build_Sys (self st2) w2 (trace st2)).
  unfold bind at 1.
  destruct (Z.eqb (clock mod 5) 0).
  - destruct (get_positions_quiet rt st3) as (ps & st4 & evs4 & Hrun4 & _ & Hmd4).
    destruct (get_account_info_quiet rt st4)
      as (acc & st5 & evs5 & Hrun5 & _ & Hmd5).
    unfold bind at 1. rewrite Hrun4. unfold bind at 1. rewrite Hrun5.
    unfold Bridge.emit, Bridge.sleep. run_monad.
    eexists. split; [reflexivity |]. cbn [self]. now rewrite Hmd5, Hmd4.
  - unfold Bridge.sleep. run_monad. eexists. split; reflexivity.
Qed.

(** X17. A symbol whose fetch fails in an iteration (the terminal answers
    [None] or raises) keeps the entry it had before the iteration: a stale
    tick stays in the tick map until a later fetch succeeds. *)
Theorem failed_fetch_keeps_previous_tick {W} (rt : Runtime W)
    (st mid : Sys W) before symbol after answer w :
  Bridge.major_pairs = before ++ symbol :: after ->
  connected (self st) = true ->
  for_each before (Bridge.stream_symbol rt) st = (Ret tt, mid) ->
  mt5_symbol_info_tick rt symbol (world mid) = (answer, w) ->
  (forall t, answer <> Ret (Some t)) ->
  exists st',
    Bridge.stream_iteration rt st = (Ret tt, st') /\
    market_data (self st') !! symbol = market_data (self st) !! symbol.
Proof.
  intros Hsplit Hon Hbefore Hfetch Hfail.
  destruct (for_each_stream_run rt before st Hon)
    as (mid' & evs0 & Hrun0 & Hon0 & _ & Hkeep0).
  rewrite Hbefore in Hrun0. injection Hrun0 as <-.
  destruct (stream_symbol_run rt symbol mid Hon0)
    as (st1 & evs1 & Hrun1 & Hon1 & _ & _ & _ & Hskip).
  destruct (Hskip answer w Hfetch Hfail) as [Hsame _].
  destruct (for_each_stream_run rt after st1 Hon1)
    as (st2 & evs2 & Hrun2 & _ & _ & Hkeep2).
  assert (Hloop : for_each Bridge.major_pairs (Bridge.stream_symbol rt) st
                  = (Ret tt, st2)).
  { rewrite Hsplit, for_each_app. unfold bind. rewrite Hbefore.
    cbn [for_each]. unfold bind. now rewrite Hrun1. }
  destruct (iteration_after_loop rt st st2 Hloop) as (st' & Hrun & Hmd).
  exists st'. split; [exact Hrun |].
  rewrite Hmd, Hkeep2 by (eapply later_pairs_differ; eauto).
  rewrite Hsame. apply Hkeep0. eapply earlier_pairs_differ; eauto.
Qed.

Lemma failed_fetch_keeps_previous_tick_witness :
  exists st',
    Bridge.stream_iteration (Fake.terminal Scenario.no_tick) Scenario.streaming
      = (Ret tt, st') /\
    market_data (self st') !! "USDJPY"
    = market_data (self Scenario.streaming) !! "USDJPY".
Proof.
  apply (failed_fetch_keeps_previous_tick (Fake.terminal Scenario.no_tick)
           Scenario.streaming
           (snd (for_each ["EURUSD"; "GBPUSD"]
                   (Bridge.stream_symbol (Fake.terminal Scenario.no_tick))
                   Scenario.streaming))
           ["EURUSD"; "GBPUSD"] "USDJPY"
           ["USDCHF"; "AUDUSD"; "USDCAD"; "NZDUSD"] (Ret None) 3%nat).
  - reflexivity.
  - reflexivity.
  - vm_compute. reflexivity.
  - vm_compute. reflexivity.
  - discriminate.
Defined.

(** X18. A client that subscribes to a symbol right after the worker
    streamed a tick for it is sent exactly the dictionary of that tick,
    from the bridge's tick map and without a terminal call. *)
Theorem subscribe_replays_streamed_tick {W} (rt : Runtime W) (st : Sys W)
    symbol t w :
  connected (self st) = true ->
  mt5_symbol_info_tick rt symbol (world st) = (Ret (Some t), w) ->
  exists st1,
    Bridge.stream_symbol rt symbol st = (Ret tt, st1) /\
    Socket.handle_subscribe (VStr symbol) st1
    = (Ret tt,
       Build_Sys (self st1) (world st1)
         (trace st1
          ++ [EvEmit "market_data" (JDict (Bridge.tick_data symbol t))])).
Proof.
  intros Hon Hfetch.
  destruct (stream_symbol_run rt symbol st Hon)
    as (st1 & evs & Hrun & _ & _ & _ & Hstored & _).
  destruct (Hstored t w Hfetch) as [Hentry _].
  exists st1. split; [exact Hrun |].
  unfold Socket.handle_subscribe, Bridge.emit. run_monad.
  now rewrite Hentry.
Qed.

Lemma subscribe_replays_streamed_tick_witness :
  exists st1,
    Bridge.stream_symbol (Fake.terminal Fake.healthy) "EURUSD" Fake.online
      = (Ret tt, st1) /\
    Socket.handle_subscribe (VStr "EURUSD") st1
    = (Ret tt,
       Build_Sys (self st1) (world st1)
         (trace st1
          ++ [EvEmit "market_data"
                (JDict (Bridge.tick_data "EURUSD" Fake.quote))])).
Proof.
  apply (subscribe_replays_streamed_tick (Fake.terminal Fake.healthy)
           Fake.online "EURUSD" Fake.quote 1%nat); reflexivity.
Defined.

(** ** Invariants of the running server *)

Lemma run_invariant {W} (rt : Runtime W) (I : Sys W -> Prop) :
  (forall a st, I st -> I (Server.perform rt a st)) ->
  forall l st, I st -> I (Server.run rt l st).
Proof.
  intros Hstep l. unfold Server.run.
  induction l as [| a l IH]; intros st Hst; cbn [fold_left]; auto.
Qed.

Ltac open_handlers :=
  unfold Api.get_status, Api.connect_mt5, Api.disconnect_mt5, Api.get_account,
    Api.get_positions, Api.get_orders, Api.place_order, Api.close_position,
    Api.get_symbols, Api.get_market_data, Socket.handle_connect,
    Socket.handle_disconnect, Socket.handle_subscribe;
  cbn [Bridge._data_stream_worker];
  unfold Bridge.connect, Bridge.disconnect, Bridge.get_account_info,
    Bridge.get_positions, Bridge.get_orders, Bridge.place_order,
    Bridge.close_position, Bridge.get_market_data, Bridge.start_data_stream,
    Bridge.stream_iteration, Bridge.stream_symbol, Bridge.emit, Bridge.sleep.

(** From a frame of a handler to the state it leaves. *)
Lemma after_preserves {W A} P Q (m : M W A) (st : Sys W) :
  preserves P Q m -> P (self st) (self (Server.after m st)).
Proof. intros H. destruct (H st) as (_ & _ & _ & HP). exact HP. Qed.

(** X19. However many requests, client events and worker turns the
    server has handled since start-up, one after the other, the stored
    symbol list holds at most 50 names. *)
Theorem symbols_never_exceed_fifty {W} (rt : Runtime W) (w : W)
    (l : list Server.action) :
  (length (symbols (self (Server.run rt l (Server.boot w)))) <= 50)%nat.
Proof.
  apply (run_invariant rt
           (fun st => (length (symbols (self st)) <= 50)%nat));
    [| cbn; lia].
  intros a st Hst. revert Hst.
  set (P := fun s s' : MT5Bridge =>
              (length (symbols s) <= 50)%nat ->
              (length (symbols s') <= 50)%nat).
  assert (Hr : forall s, P s s) by (unfold P; auto).
  assert (Ht : forall a b c, P a b -> P b c -> P a c) by (unfold P; auto).
  enough (H : P (self st) (self (Server.perform rt a st))) by exact H.
  destruct a; cbn [Server.perform];
    apply (after_preserves P (fun _ => True));
    open_handlers; frame Hr Ht; auto; unfold P; cbn [symbols set_symbols];
    intros _; rewrite length_map, length_firstn; lia.
Qed.

(** X20. Only the worker writes the tick map, and only under the seven
    major pairs: after any sequence of requests, client events and worker
    turns since start-up, no other key holds a tick, so a client that
    subscribes to another symbol, or sends no symbol text at all, is sent
    nothing. *)
Theorem tick_map_holds_major_pairs_only {W} (rt : Runtime W) (w : W)
    (l : list Server.action) :
  let st := Server.run rt l (Server.boot w) in
  (forall k, ~ In k Bridge.major_pairs -> market_data (self st) !! k = None) /\
  (forall k, ~ In k Bridge.major_pairs ->
     Socket.handle_subscribe (VStr k) st = (Ret tt, st)) /\
  Socket.handle_subscribe VNone st = (Ret tt, st).
Proof.
  cbv zeta.
  assert (Hkeys : forall k, ~ In k Bridge.major_pairs ->
            market_data (self (Server.run rt l (Server.boot w))) !! k = None).
  { apply (run_invariant rt
             (fun st => forall k, ~ In k Bridge.major_pairs ->
                                  market_data (self st) !! k = None));
      [| intros k _; apply lookup_empty].
    intros a st Hst. revert Hst.
    set (P := fun s s' : MT5Bridge =>
                (forall k, ~ In k Bridge.major_pairs ->
                           market_data s !! k = None) ->
                (forall k, ~ In k Bridge.major_pairs ->
                           market_data s' !! k = None)).
    assert (Hr : forall s, P s s) by (unfold P; auto).
    assert (Ht : forall a b c, P a b -> P b c -> P a c) by (unfold P; auto).
    enough (H : P (self st) (self (Server.perform rt a st))) by exact H.
    destruct a; cbn [Server.perform];
      apply (after_preserves P (fun _ => True));
      open_handlers; frame Hr Ht; auto; unfold P;
      cbn [market_data set_market_data];
      intros Hold k Hk;
      (rewrite lookup_insert_ne;
       [ now apply Hold
       | intros E; apply Hk; subst k;
         first [assumption | unfold Bridge.major_pairs; cbn; tauto] ]). }
  split; [exact Hkeys |]. split; [| reflexivity].
  intros k Hk. pose proof (Hkeys k Hk) as Hnone.
  unfold Socket.handle_subscribe, bind, get_self, ret. now rewrite Hnone.
Qed.

(** The account the bridge holds is a snapshot of the terminal, and it
    holds one whenever it is connected. *)
Lemma connect_keeps_account {W} (rt : Runtime W) login password server :
  preserves
    (fun s s' : MT5Bridge =>
       match account_info s with
       | Some d => exists a, d = account_asdict a
       | None => connected s = false
       end ->
       match account_info s' with
       | Some d => exists a, d = account_asdict a
       | None => connected s' = false
       end)
    (fun _ => True) (Bridge.connect rt login password server).
Proof.
  intros st.
  destruct (Bridge.connect rt login password server st) as [r st'] eqn:Hrun.
  destruct (connect_events rt _ _ _ _ _ _ Hrun) as (b & evs & _ & Htr & _).
  exists evs. cbn [snd]. split; [exact Htr |].
  split; [apply Forall_forall; auto |].
  unfold Bridge.connect in Hrun. run_monad.
  split_run Hrun; injection Hrun as <- <-; cbn; eauto.
Qed.

(** X21. After any sequence of requests, client events and worker turns
    since start-up, a connected bridge holds an account snapshot of the
    terminal, and the status handler answers 200 without raising and
    without a terminal call: it reports the status flag, and the login of
    the stored account whenever one is stored. *)
Theorem status_always_answers {W} (rt : Runtime W) (w : W)
    (l : list Server.action) timestamp :
  let st := Server.run rt l (Server.boot w) in
  (connected (self st) = true ->
     exists a, account_info (self st) = Some (account_asdict a)) /\
  exists body,
    Api.get_status timestamp st = (Ret (JDict body, 200), st) /\
    body !! "mt5_connected" = Some (VBool (connected (self st))) /\
    match account_info (self st) with
    | Some d =>
        exists a,
          d = account_asdict a /\
          body !! "account" = Some (VInt (acc_login a))
    | None => body !! "account" = Some VNone
    end.
Proof.
  cbv zeta.
  set (J := fun s : MT5Bridge =>
              match account_info s with
              | Some d => exists a, d = account_asdict a
              | None => connected s = false
              end).
  assert (HJ : J (self (Server.run rt l (Server.boot w)))).
  { apply (run_invariant rt (fun st => J (self st))); [| reflexivity].
    intros a st Hst. revert Hst.
    set (P := fun s s' : MT5Bridge => J s -> J s').
    assert (Hr : forall s, P s s) by (unfold P; auto).
    assert (Ht : forall a b c, P a b -> P b c -> P a c) by (unfold P; auto).
    enough (H : P (self st) (self (Server.perform rt a st))) by exact H.
    destruct a; cbn [Server.perform];
      apply (after_preserves P (fun _ => True));
      try (unfold Api.connect_mt5;
           apply (preserves_bind _ _ Ht); [apply connect_keeps_account |];
           intros ?);
      open_handlers; frame Hr Ht; auto; unfold P, J; cbn; eauto;
      try (intros H; destruct (account_info _); auto). }
  set (st := Server.run rt l (Server.boot w)) in *.
  unfold J in HJ. split.
  - intros Hon. destruct (account_info (self st)) as [d |].
    + destruct HJ as [a ->]. eauto.
    + congruence.
  - unfold Api.get_status, Api.status_account. run_monad.
    destruct (account_info (self st)) as [d |].
    + destruct HJ as [a ->]. cbn. eexists. repeat split. exists a. now split.
    + cbn. eexists. repeat split.
Qed.

Lemma worker_alive_app alive (l1 l2 : list event) :
  worker_alive alive (l1 ++ l2) = worker_alive (worker_alive alive l1) l2.
Proof.
  revert alive. induction l1 as [| e l1 IH]; intros alive; cbn; auto.
  destruct e; auto.
Qed.

Lemma starts_while_alive_app alive (l1 l2 : list event) :
  starts_while_alive alive (l1 ++ l2)
  = starts_while_alive alive l1
    || starts_while_alive (worker_alive alive l1) l2.
Proof.
  revert alive. induction l1 as [| e l1 IH]; intros alive; cbn; auto.
  destruct e; auto. now rewrite IH, orb_assoc.
Qed.

Lemma thread_neutral_events alive (l : list event) :
  Forall (fun e => is_thread_event e = false) l ->
  worker_alive alive l = alive /\ starts_while_alive alive l = false.
Proof.
  induction 1 as [| e l He _ [IH1 IH2]]; cbn; auto.
  destruct e; auto; discriminate He.
Qed.

(** X22. With requests, client events and worker turns handled one after
    the other since start-up, a worker thread is only ever started when
    none is alive: every start follows the join of the thread started
    before it.  While a thread is alive the run flag is set and the
    bridge holds its thread object. *)
Theorem no_second_worker {W} (rt : Runtime W) (w : W)
    (l : list Server.action) :
  let st := Server.run rt l (Server.boot w) in
  starts_while_alive false (trace st) = false /\
  (worker_alive false (trace st) = true ->
   running (self st) = true /\ data_thread (self st) = true).
Proof.
  cbv zeta.
  apply (run_invariant rt
           (fun st =>
              starts_while_alive false (trace st) = false /\
              (worker_alive false (trace st) = true ->
               running (self st) = true /\ data_thread (self st) = true)));
    [| split; [reflexivity | discriminate]].
  intros a st [Hstarts Halive].
  set (P := fun s s' : MT5Bridge =>
              running s' = running s /\ data_thread s' = data_thread s).
  set (Q := fun e => is_thread_event e = false).
  assert (Hr : forall s, P s s) by (unfold P; auto).
  assert (Ht : forall a b c, P a b -> P b c -> P a c)
    by (unfold P; intros ? ? ? [-> ->] [-> ->]; auto).
  assert (Hneutral : forall A (m : M W A),
             preserves P Q m ->
             starts_while_alive false (trace (Server.after m st)) = false /\
             (worker_alive false (trace (Server.after m st)) = true ->
              running (self (Server.after m st)) = true /\
              data_thread (self (Server.after m st)) = true)).
  { intros A m Hm. unfold Server.after.
    destruct (Hm st) as (evs & -> & HQ & [-> ->]).
    destruct (thread_neutral_events (worker_alive false (trace st)) evs HQ)
      as [Ha Hs].
    rewrite starts_while_alive_app, worker_alive_app, Hstarts, Ha, Hs. auto. }
  destruct a; cbn [Server.perform];
    try (apply Hneutral; open_handlers; frame Hr Ht;
         unfold P, Q; auto; fail).
  - (* connect, then the start of the stream *)
    assert (Hc : preserves P Q (Bridge.connect rt login password server))
      by (unfold Bridge.connect; frame Hr Ht; unfold P, Q; auto).
    destruct (Hneutral _ _ Hc) as [Hs1 Ha1].
    unfold Server.after in *. unfold Api.connect_mt5. unfold bind.
    destruct (Bridge.connect rt login password server st)
      as [[[] | e] st1]; cbn [snd] in *; auto.
    unfold Bridge.start_data_stream. run_monad.
    destruct (running (self st1)) eqn:Hrun1; cbn.
    + rewrite Hrun1. auto.
    + rewrite starts_while_alive_app, worker_alive_app, Hs1. cbn.
      destruct (worker_alive false (trace st1)); auto.
      destruct Ha1 as [Hx _]; [reflexivity | discriminate Hx].
  - (* disconnect: join, then shutdown *)
    unfold Server.after, Api.disconnect_mt5, Bridge.disconnect. run_monad.
    cbn [set_running data_thread].
    destruct (data_thread (self st)) eqn:Hthread; cbn;
      destruct (mt5_shutdown rt (world st)) as [[[] | e] w0]; cbn;
      rewrite <- ?app_assoc, starts_while_alive_app, worker_alive_app, Hstarts;
      cbn; (split; [reflexivity |]); try discriminate;
      destruct (worker_alive false (trace st)); try discriminate;
      destruct Halive as [_ Hx]; try reflexivity; discriminate Hx.
Qed.

Example double_start_is_seen :
  starts_while_alive false [EvThreadStart; EvShutdown (Ret tt); EvThreadStart]
  = true.
Proof. reflexivity. Qed.

Example restart_after_join_is_fine :
  starts_while_alive false [EvThreadStart; EvThreadJoin; EvThreadStart] = false.
Proof. reflexivity. Qed.

(** ** The read handlers *)

(** X23. What the read handlers of a connected bridge answer.  The
    positions and orders handlers always answer 200: a terminal that fails
    or raises shows as an empty list, as if nothing were open.  The account
    handler answers 500 "Failed to get account info" and the market handler
    404 "Failed to get data for" the symbol when the terminal gives
    nothing. *)
Theorem read_routes_status {W} (rt : Runtime W) (st : Sys W) :
  connected (self st) = true ->
  (forall found w,
      mt5_positions_get rt None (world st) = (found, w) ->
      fst (Api.get_positions rt st)
      = Ret (JDicts match found with
                    | Ret (Some (p :: l)) => map position_asdict (p :: l)
                    | _ => []
                    end, 200)) /\
  (forall found w,
      mt5_orders_get rt (world st) = (found, w) ->
      fst (Api.get_orders rt st)
      = Ret (JDicts match found with
                    | Ret (Some (o :: l)) => map order_asdict (o :: l)
                    | _ => []
                    end, 200)) /\
  (forall info w,
      mt5_account_info rt (world st) = (info, w) ->
      fst (Api.get_account rt st)
      = Ret match info with
            | Ret (Some a) => (JDict (account_asdict a), 200)
            | _ => (JDict (Bridge.error_dict "Failed to get account info"), 500)
            end) /\
  (forall symbol tick w,
      mt5_symbol_info_tick rt symbol (world st) = (tick, w) ->
      fst (Api.get_market_data rt symbol st)
      = Ret match tick with
            | Ret (Some t) => (JDict (Bridge.tick_data symbol t), 200)
            | _ => (JDict (Bridge.error_dict
                             ("Failed to get data for " +:+ symbol)), 404)
            end).
Proof.
  intros Hon. split; [| split; [| split]].
  - intros found w Hfound.
    unfold Api.get_positions, Bridge.get_positions. run_monad.
    rewrite Hon. cbn. rewrite ?Hon. cbn. rewrite Hfound.
    destruct found as [[[| p l] |] | e]; reflexivity.
  - intros found w Hfound.
    unfold Api.get_orders, Bridge.get_orders. run_monad.
    rewrite Hon. cbn. rewrite ?Hon. cbn. rewrite Hfound.
    destruct found as [[[| o l] |] | e]; reflexivity.
  - intros info w Hinfo.
    unfold Api.get_account, Bridge.get_account_info. run_monad.
    rewrite Hon. cbn. rewrite ?Hon. cbn. rewrite Hinfo.
    destruct info as [[a |] | e]; reflexivity.
  - intros symbol tick w Htick.
    unfold Api.get_market_data, Bridge.get_market_data. run_monad.
    rewrite Hon. cbn. rewrite ?Hon. cbn. rewrite Htick.
    destruct tick as [[t |] | e]; reflexivity.
Qed.

Lemma read_routes_status_witness :
  fst (Api.get_positions (Fake.terminal Fake.flat) Fake.holding)
  = Ret (JDicts [], 200).
Proof.
  refine (proj1 (read_routes_status (Fake.terminal Fake.flat) Fake.holding _)
            (Ret (Some [])) 1%nat _); reflexivity.
Defined.
